(** * sepfinder: the per-conversation wizard and its manifest resolution

    A shallow embedding of [sepfinder.py].  The handlers [start], [on_text],
    [show_firmware_menu] and [pzb_buildmanifest] are translated into an
    exception-and-state monad over the objects the Python code mutates:
    the per-conversation dictionary [ctx.user_data], the process-wide
    dictionary [ctx.bot_data], the process working directory, the set of
    directories that exist, and the sequence of calls made to the outside
    world (chat replies, HTTP requests, the [pzb] subprocess).

    Modelling conventions.
    - Python [str] values are Rocq strings (the bytes of their UTF-8
      encoding, on which equality, prefix, suffix, substring, splitting
      at an ASCII character and [html.escape] agree with Python's on code
      points).
    - The JSON returned by the catalog API is taken at the shape the code
      reads it with (records with the fields the code subscripts).
    - A parsed property list is an untyped tree, since the code subscripts
      it under a [try] and the failure paths matter.
    - [str.lower], [urllib.parse.urlparse], [urlunparse] and
      [plistlib.loads] are library functions, taken as parameters ([Lib]).
    - What the network and the subprocess answer during one handler call is
      a parameter of that call ([Env]).  The [pzb] executable is assumed to
      be installed and to exit after finitely many polls.
    - Directories are created and removed only by [TemporaryDirectory];
      removing a directory the process stands in succeeds (POSIX), and
      [Path.cwd()] then raises [FileNotFoundError]. *)

From Stdlib Require Import ZArith String Ascii List Bool Lia.
From stdpp Require Import base gmap strings list fin_maps.

Local Open Scope string_scope.
Set Warnings "-register-all".

(** ** Strings, the way the handlers use them *)

Definition lower_ascii (c : ascii) : ascii :=
  let n := nat_of_ascii c in
  if (65 <=? n)%nat && (n <=? 90)%nat then ascii_of_nat (n + 32) else c.

(** Lowering of the letters A-Z: what [str.lower()] does on ASCII text
    (the lowering of the sample library [ex_lib]). *)
Fixpoint lower (s : string) : string :=
  match s with
  | EmptyString => EmptyString
  | String c r => String (lower_ascii c) (lower r)
  end.

(** [s.startswith(p)] *)
Definition startswith (s p : string) : bool := String.prefix p s.

(** [s.endswith(suf)] *)
Definition endswith (s suf : string) : bool :=
  (String.length suf <=? String.length s)%nat
  && String.eqb (substring (String.length s - String.length suf) (String.length suf) s) suf.

(** [sub in s] on two strings *)
Fixpoint str_contains (s sub : string) : bool :=
  String.prefix sub s ||
  match s with
  | EmptyString => false
  | String _ r => str_contains r sub
  end.

(** [s.split(sep)] for a one-character separator *)
Fixpoint split_on (sep : ascii) (s : string) : list string :=
  match s with
  | EmptyString => [EmptyString]
  | String c r =>
      if Ascii.eqb c sep then EmptyString :: split_on sep r
      else match split_on sep r with
           | [] => [String c EmptyString]
           | w :: ws => String c w :: ws
           end
  end.

(** [sep.join(l)] *)
Fixpoint join (sep : string) (l : list string) : string :=
  match l with
  | [] => EmptyString
  | [x] => x
  | x :: r => x ++ sep ++ join sep r
  end.

Definition dquote : ascii := ascii_of_nat 34.
Definition squote : ascii := ascii_of_nat 39.

Definition escape_char (c : ascii) : string :=
  if Ascii.eqb c "&" then "&amp;"
  else if Ascii.eqb c "<" then "&lt;"
  else if Ascii.eqb c ">" then "&gt;"
  else if Ascii.eqb c dquote then "&quot;"
  else if Ascii.eqb c squote then "&#x27;"
  else String c EmptyString.

(** [html.escape(s)] (with its default [quote=True]) *)
Fixpoint html_escape (s : string) : string :=
  match s with
  | EmptyString => EmptyString
  | String c r => escape_char c ++ html_escape r
  end.

Definition newline : string := String (ascii_of_nat 10) EmptyString.

(** ** Data *)

(** [class State(Enum)] *)
Inductive State := NONE | DEVICE_TYPE | DEVICE_MODEL | BOARD_CONFIG | FIRMWARE.

#[global] Instance State_eq_dec : EqDecision State.
Proof. solve_decision. Defined.

(** One entry of [GET /v4/devices]. *)
Record DeviceSummary := {
  ds_identifier : string;
  ds_name : string;
}.

(** One entry of a device's ['boards']. *)
Record BoardEntry := {
  be_boardconfig : string;
}.

(** One entry of a device's ['firmwares']. *)
Record FirmwareEntry := {
  fw_version : string;
  fw_buildid : string;
  fw_url : string;
  fw_signed : bool;
}.

(** The body of [GET /v4/device/{identifier}]. *)
Record DeviceDetail := {
  dd_name : string;
  dd_identifier : string;
  dd_boards : list BoardEntry;
  dd_firmwares : list FirmwareEntry;
}.

(** What [ctx.user_data] holds under its keys ['state'], ['device'] and
    ['boardconfig']. *)
Inductive Value :=
  | VState (s : State)
  | VDevice (d : DeviceDetail)
  | VStr (s : string).

(** A value of [plistlib]: dict, list, str, int, bool, bytes, datetime, and
    the remaining kinds (float, UID), which behave alike under every
    operation the code applies. *)
Inductive plist :=
  | PDict (kvs : list (string * plist))
  | PArray (l : list plist)
  | PString (s : string)
  | PInteger (z : Z)
  | PBool (b : bool)
  | PData (b : list Byte.byte)
  | PDate
  | POther.

(** What a handler or [pzb_buildmanifest] can hand back: [None], the
    [Message] object [reply_text] returns, or a parsed property list. *)
Inductive PyVal :=
  | PyNone
  | PyMessage
  | PyPlist (p : plist).

Inductive exn :=
  | KeyError
  | TypeError
  | AttributeError
  | StopIteration
  | InvalidFileException
  | FileNotFoundError.

Inductive Markup :=
  | NoMarkup
  | ReplyKeyboardMarkup (keyboard : list (list string))
  | ReplyKeyboardRemove.

(** Calls that leave the process. *)
Inductive Event :=
  | Reply (text : string) (markup : Markup) (html : bool)
  | HttpGet (url : string)
  | Popen (argv : list string)
  | SendChatAction
  | Sleep (seconds : nat).

(** [DEVICE_TYPES] *)
Definition DEVICE_TYPES : gmap string string :=
  list_to_map [("iPhone", "iPhone"); ("iPad", "iPad");
               ("iPod touch", "iPod"); ("Apple TV", "AppleTV")].

(** [urllib.parse.ParseResult] *)
Record ParseResult := {
  scheme : string;
  netloc : string;
  path : string;
  params : string;
  query : string;
  fragment : string;
}.

(** [p._replace(path=...)] *)
Definition replace_path (p : ParseResult) (path' : string) : ParseResult :=
  {| scheme := scheme p; netloc := netloc p; path := path';
     params := params p; query := query p; fragment := fragment p |}.

(** Library functions the handlers call. *)
Record Lib := {
  str_lower : string → string;
  urlparse : string → ParseResult;
  urlunparse : ParseResult → string;
  plistlib_loads : list Byte.byte → option plist;
}.

(** A [requests] response: [r.ok] and the decoded body. *)
Record Response (A : Type) := {
  ok : bool;
  body : A;
}.
Arguments ok {A} _.
Arguments body {A} _.

(** What the outside world answers during one handler call. *)
Record Env := {
  api_devices : Response (list DeviceSummary);
  api_device : string → Response DeviceDetail;
  http_get : string → Response (list Byte.byte);
  (** number of times [p.poll()] is [None] before the subprocess exits *)
  pzb_polls : string → nat;
  (** contents of [BuildManifest.plist] in the working directory after the
      subprocess exits, if the file exists *)
  pzb_output : string → option (list Byte.byte);
  (** the directory [tempfile.TemporaryDirectory()] creates *)
  mkdtemp : string;
}.

(** The mutable objects a handler call sees. *)
Record St := {
  user_data : gmap string Value;
  bot_data : gmap string (list DeviceSummary);
  cwd : string;
  dirs : gset string;
  trace : list Event;
}.

Definition set_user_data (f : gmap string Value → gmap string Value) (s : St) : St :=
  {| user_data := f (user_data s); bot_data := bot_data s; cwd := cwd s;
     dirs := dirs s; trace := trace s |}.

Definition set_bot_data (f : gmap string (list DeviceSummary) → gmap string (list DeviceSummary))
    (s : St) : St :=
  {| user_data := user_data s; bot_data := f (bot_data s); cwd := cwd s;
     dirs := dirs s; trace := trace s |}.

Definition set_cwd (d : string) (s : St) : St :=
  {| user_data := user_data s; bot_data := bot_data s; cwd := d;
     dirs := dirs s; trace := trace s |}.

Definition set_dirs (f : gset string → gset string) (s : St) : St :=
  {| user_data := user_data s; bot_data := bot_data s; cwd := cwd s;
     dirs := f (dirs s); trace := trace s |}.

Definition emit (e : Event) (s : St) : St :=
  {| user_data := user_data s; bot_data := bot_data s; cwd := cwd s;
     dirs := dirs s; trace := trace s ++ [e] |}.

(** ** The monad: state, with Python exceptions *)

Inductive Res (A : Type) :=
  | Ret (a : A)
  | Raise (e : exn).
Arguments Ret {A} _.
Arguments Raise {A} _.

Definition M (A : Type) : Type := St → Res A * St.

Definition ret {A} (a : A) : M A := fun s => (Ret a, s).

Definition raise {A} (e : exn) : M A := fun s => (Raise e, s).

Definition bind {A B} (m : M A) (k : A → M B) : M B :=
  fun s =>
    match m s with
    | (Ret a, s') => k a s'
    | (Raise e, s') => (Raise e, s')
    end.

Notation "x <- m ;; k" := (bind m (fun x => k))
  (at level 100, m at next level, right associativity).
Notation "m ;;; k" := (bind m (fun _ => k))
  (at level 100, right associativity).

(** [try: body / except Exception: handler; raise] *)
Definition try_reraise {A} (body : M A) (handler : M PyVal) : M A :=
  fun s =>
    match body s with
    | (Ret a, s') => (Ret a, s')
    | (Raise e, s') =>
        match handler s' with
        | (Ret _, s'') => (Raise e, s'')
        | (Raise e', s'') => (Raise e', s'')
        end
    end.

Definition modify (f : St → St) : M unit := fun s => (Ret tt, f s).

Definition gets {A} (f : St → A) : M A := fun s => (Ret (f s), s).

(** lifting a pure computation that may raise *)
Definition lift {A} (r : exn + A) : M A :=
  match r with
  | inl e => raise e
  | inr a => ret a
  end.

(** [update.message.reply_text(text, reply_markup=..., parse_mode=...)] *)
Definition reply_text (text : string) (markup : Markup) (html : bool) : M PyVal :=
  modify (emit (Reply text markup html)) ;;; ret PyMessage.

(** ** Python operations on untyped values *)

Definition ebind {A B} (r : exn + A) (k : A → exn + B) : exn + B :=
  match r with
  | inl e => inl e
  | inr a => k a
  end.

Notation "x <-' r ;; k" := (ebind r (fun x => k))
  (at level 100, r at next level, right associativity).

(** [d[k]] on a dict given by its items *)
Fixpoint dict_get (k : string) (kvs : list (string * plist)) : option plist :=
  match kvs with
  | [] => None
  | (k', v) :: r => if String.eqb k' k then Some v else dict_get k r
  end.

(** [p[k]] with a string key *)
Definition plist_getitem (p : plist) (k : string) : exn + plist :=
  match p with
  | PDict kvs =>
      match dict_get k kvs with
      | Some v => inr v
      | None => inl KeyError
      end
  | _ => inl TypeError
  end.

(** [v[k]] on what [pzb_buildmanifest] or [plistlib.loads] returned *)
Definition py_getitem (v : PyVal) (k : string) : exn + plist :=
  match v with
  | PyPlist p => plist_getitem p k
  | PyMessage | PyNone => inl TypeError
  end.

Definition is_pstring (k : string) (p : plist) : bool :=
  match p with
  | PString s => String.eqb s k
  | _ => false
  end.

(** [k in p] with a string [k] *)
Definition plist_contains (k : string) (p : plist) : exn + bool :=
  match p with
  | PDict kvs => inr (match dict_get k kvs with Some _ => true | None => false end)
  | PArray l => inr (existsb (is_pstring k) l)
  | PString s => inr (str_contains s k)
  | _ => inl TypeError
  end.

(** the elements [for x in p] goes through (a [str] gives its characters,
    here one one-byte string per byte of the encoding: the two agree on
    whether there is a first element, and every such element fails at the
    first subscript the code applies to it) *)
Definition plist_iter (p : plist) : exn + list plist :=
  match p with
  | PArray l => inr l
  | PDict kvs => inr (map (fun kv => PString (fst kv)) kvs)
  | PString s => inr (map (fun c => PString (String c EmptyString)) (list_ascii_of_string s))
  | PData b => inr (map (fun x => PInteger (Z.of_N (Byte.to_N x))) b)
  | _ => inl TypeError
  end.

(** [v.lower()] on a value of [ctx.user_data] *)
Definition value_lower (L : Lib) (v : Value) : exn + string :=
  match v with
  | VStr s => inr (str_lower L s)
  | _ => inl AttributeError
  end.

(** [p.lower() == rhs.lower()]: the left operand is evaluated first;
    [bytes.lower()] exists, and a [bytes] never equals a [str]. *)
Definition lower_eq (L : Lib) (p : plist) (rhs : Value) : exn + bool :=
  match p with
  | PString s => r <-' value_lower L rhs ;; inr (String.eqb (str_lower L s) r)
  | PData _ => _ <-' value_lower L rhs ;; inr false
  | _ => inl AttributeError
  end.

(** [html.escape(p)] on a manifest value: it calls [p.replace("&", "&amp;")];
    [bytes] and [datetime] have a [replace] that refuses these arguments,
    the other kinds have none. *)
Definition plist_escape (p : plist) : exn + string :=
  match p with
  | PString s => inr (html_escape s)
  | PData _ | PDate => inl TypeError
  | _ => inl AttributeError
  end.

(** [html.escape(v)] on a value of [ctx.user_data] *)
Definition value_escape (v : Value) : exn + string :=
  match v with
  | VStr s => inr (html_escape s)
  | _ => inl AttributeError
  end.

(** [v['firmwares']], [v['name']]: only a device record can be subscripted *)
Definition as_device (v : Value) : exn + DeviceDetail :=
  match v with
  | VDevice d => inr d
  | _ => inl TypeError
  end.

(** [v == State.X] *)
Definition state_is (v : Value) (s : State) : bool :=
  match v with
  | VState s' => bool_decide (s' = s)
  | _ => false
  end.

(** ** Keyboards *)

(** [keyboard[-1].append(x)] *)
Fixpoint append_last (keyboard : list (list string)) (x : string) : list (list string) :=
  match keyboard with
  | [] => []
  | [row] => [(row ++ [x])%list]
  | row :: rest => row :: append_last rest x
  end.

(** The loop
    [for i, x in enumerate(items): if i % 2 == 0: keyboard.append([]);
     keyboard[-1].append(x)], started at index [i]. *)
Fixpoint keyboard_loop (i : nat) (items : list string) (keyboard : list (list string))
    : list (list string) :=
  match items with
  | [] => keyboard
  | x :: rest =>
      let keyboard := if (i mod 2 =? 0)%nat then (keyboard ++ [[]])%list else keyboard in
      keyboard_loop (S i) rest (append_last keyboard x)
  end.

Definition make_keyboard (items : list string) : list (list string) :=
  keyboard_loop 0 items [].

(** ** The handlers *)

Definition invalid_state : M PyVal :=
  reply_text "Invalid state. Please start over using /start." ReplyKeyboardRemove false.

Definition invalid_input : M PyVal :=
  reply_text "Invalid input." NoMarkup false.

Definition api_unavailable : M PyVal :=
  reply_text "Unable to communicate with ipsw.me API, please try again later." NoMarkup false.

(** [start] *)
Definition start : M PyVal :=
  reply_text "Please select a device type."
    (ReplyKeyboardMarkup [["iPhone"; "iPad"]; ["iPod touch"; "Apple TV"]]) false ;;;
  modify (set_user_data (fun _ => ∅)) ;;;
  modify (set_user_data (insert "state" (VState DEVICE_TYPE))) ;;;
  ret PyNone.

(** [show_firmware_menu] *)
Definition show_firmware_menu : M PyVal :=
  ud <- gets user_data ;;
  match ud !! "device" with
  | None => invalid_state
  | Some dv =>
      device <- lift (as_device dv) ;;
      let firmwares := List.filter fw_signed (dd_firmwares device) in
      match firmwares with
      | [] => reply_text "No signed firmwares found for this device." NoMarkup false
      | _ =>
          reply_text "Please select a version."
            (ReplyKeyboardMarkup (make_keyboard (map fw_version firmwares))) false ;;;
          modify (set_user_data (insert "state" (VState FIRMWARE))) ;;;
          ret PyNone
      end
  end.

(** [while p.poll() is None: send_chat_action(...); time.sleep(1)], for a
    subprocess that exits after [n] polls *)
Fixpoint poll_loop (n : nat) : M unit :=
  match n with
  | O => ret tt
  | S k => modify (emit SendChatAction) ;;; modify (emit (Sleep 1)) ;;; poll_loop k
  end.

(** [with tempfile.TemporaryDirectory() as d: body]: the directory is
    created on entry and removed however the body is left. *)
Definition with_TemporaryDirectory {A} (E : Env) (body : string → M A) : M A :=
  fun s =>
    let d := mkdtemp E in
    match body d (set_dirs (fun ds => {[d]} ∪ ds) s) with
    | (r, s') => (r, set_dirs (fun ds => ds ∖ {[d]}) s')
    end.

(** [Path.cwd()] *)
Definition Path_cwd : M string :=
  fun s => if decide (cwd s ∈ dirs s) then (Ret (cwd s), s) else (Raise FileNotFoundError, s).

(** [os.chdir(d)] *)
Definition chdir (d : string) : M unit :=
  fun s => if decide (d ∈ dirs s) then (Ret tt, set_cwd d s) else (Raise FileNotFoundError, s).

(** [plistlib.loads(bytes)] *)
Definition loads (L : Lib) (b : list Byte.byte) : M plist :=
  match plistlib_loads L b with
  | Some p => ret p
  | None => raise InvalidFileException
  end.

Definition parse_failed : M PyVal :=
  reply_text "Unable to parse BuildManifest, please try again later." NoMarkup false.

(** [pzb_buildmanifest] *)
Definition pzb_buildmanifest (L : Lib) (E : Env) (firmware : FirmwareEntry) : M PyVal :=
  reply_text "Extracting BuildManifest, please wait..." NoMarkup false ;;;
  with_TemporaryDirectory E (fun d =>
    oldcwd <- Path_cwd ;;
    chdir d ;;;
    modify (emit (Popen ["pzb"; fw_url firmware; "-g"; "BuildManifest.plist"])) ;;;
    poll_loop (pzb_polls E (fw_url firmware)) ;;;
    match pzb_output E (fw_url firmware) with
    | None =>
        reply_text
          "Unable to extract BuildManifest for the selected firmware, please try again later."
          NoMarkup false
    | Some bytes =>
        buildmanifest <- try_reraise (loads L bytes) parse_failed ;;
        chdir oldcwd ;;;
        ret (PyPlist buildmanifest)
    end).

(** The sibling manifest URL:
    [urlunparse(p._replace(path='/'.join([*p.path.split('/')[:-1], 'BuildManifest.plist'])))] *)
Definition buildmanifest_url (L : Lib) (p : ParseResult) : string :=
  urlunparse L
    (replace_path p (join "/" (removelast (split_on "/" (path p)) ++ ["BuildManifest.plist"])%list)).

(** [next(x for x in ids if x['Info']['DeviceClass'].lower() == boardconfig.lower())] *)
Fixpoint find_buildidentity (L : Lib) (ids : list plist) (boardconfig : Value)
    : exn + plist :=
  match ids with
  | [] => inl StopIteration
  | x :: rest =>
      info <-' plist_getitem x "Info" ;;
      dc <-' plist_getitem info "DeviceClass" ;;
      b <-' lower_eq L dc boardconfig ;;
      if b then inr x else find_buildidentity L rest boardconfig
  end.

(** [buildidentity['Manifest'][c]['Info']['Path'] if c in buildidentity['Manifest'] else 'None'] *)
Definition component_path (buildidentity : plist) (c : string) : exn + plist :=
  manifest <-' plist_getitem buildidentity "Manifest" ;;
  present <-' plist_contains c manifest ;;
  if present then
    manifest <-' plist_getitem buildidentity "Manifest" ;;
    component <-' plist_getitem manifest c ;;
    info <-' plist_getitem component "Info" ;;
    plist_getitem info "Path"
  else inr (PString "None").

(** The body of the second [try] of the firmware step (lines 165-178). *)
Definition manifest_query (L : Lib) (buildmanifest : PyVal) (boardconfig : Value)
    : exn + plist * plist :=
  ids <-' py_getitem buildmanifest "BuildIdentities" ;;
  l <-' plist_iter ids ;;
  buildidentity <-' find_buildidentity L l boardconfig ;;
  sep_path <-' component_path buildidentity "RestoreSEP" ;;
  bb_path <-' component_path buildidentity "BasebandFirmware" ;;
  inr (sep_path, bb_path).

Definition query_failed : M PyVal :=
  reply_text "Unable to get data from BuildManifest, please try again later." NoMarkup false.

(** The text of the final report, from the already escaped pieces. *)
Definition report_text (device boardconfig firmware buildid sep_path bb_path : string) : string :=
  "<b>" ++ device ++ " (" ++ boardconfig ++ ") - " ++ firmware ++ " (" ++ buildid ++ ")</b>"
  ++ newline ++ newline
  ++ "<b>SEP</b>: " ++ sep_path ++ newline
  ++ "<b>Baseband</b>: " ++ bb_path.

(** The arguments of [.format(...)], evaluated in order. *)
Definition format_report (device : DeviceDetail) (boardconfig : Value)
    (firmware : FirmwareEntry) (sep_path bb_path : plist) : exn + string :=
  bc <-' value_escape boardconfig ;;
  sep <-' plist_escape sep_path ;;
  bb <-' plist_escape bb_path ;;
  inr (report_text (html_escape (dd_name device)) bc (html_escape (fw_version firmware))
         (html_escape (fw_buildid firmware)) sep bb).

(** [ctx.bot_data['devices']] *)
Definition bot_devices (bd : gmap string (list DeviceSummary)) : exn + list DeviceSummary :=
  match bd !! "devices" with
  | Some l => inr l
  | None => inl KeyError
  end.

(** [on_text], branch [State.DEVICE_TYPE] (lines 59-86) *)
Definition on_device_type (E : Env) (text : string) : M PyVal :=
  match DEVICE_TYPES !! text with
  | None => invalid_input
  | Some device_type =>
      modify (emit (HttpGet "https://api.ipsw.me/v4/devices")) ;;;
      let r := api_devices E in
      if negb (ok r) then api_unavailable
      else
        modify (set_bot_data (insert "devices" (body r))) ;;;
        bd <- gets bot_data ;;
        all <- lift (bot_devices bd) ;;
        let devices := List.filter (fun x => startswith (ds_identifier x) device_type) all in
        match devices with
        | [] =>
            reply_text "No devices found. Please start over using /start."
              ReplyKeyboardRemove false
        | _ =>
            reply_text "Please select a device."
              (ReplyKeyboardMarkup (make_keyboard (map ds_name devices))) false ;;;
            modify (set_user_data (insert "state" (VState DEVICE_MODEL))) ;;;
            ret PyNone
        end
  end.

(** [on_text], branch [State.DEVICE_MODEL] (lines 88-125) *)
Definition on_device_model (L : Lib) (E : Env) (text : string) : M PyVal :=
  bd <- gets bot_data ;;
  all <- lift (bot_devices bd) ;;
  match List.find (fun x => String.eqb (ds_name x) text) all with
  | None => invalid_input
  | Some found =>
      modify (emit (HttpGet ("https://api.ipsw.me/v4/device/" ++ ds_identifier found))) ;;;
      let r := api_device E (ds_identifier found) in
      if negb (ok r) then api_unavailable
      else
        let device := body r in
        let boards :=
          map be_boardconfig
            (List.filter (fun x => endswith (str_lower L (be_boardconfig x)) "ap")
               (dd_boards device)) in
        match boards with
        | [] => reply_text "No boardconfigs found for this device." NoMarkup false
        | board0 :: _ =>
            modify (set_user_data (insert "device" (VDevice device))) ;;;
            if (1 <? length boards)%nat then
              reply_text
                ("Please select your board config." ++ newline ++ newline
                 ++ "You can get this using the System Info tweak or AIDA64 from the App Store.")
                (ReplyKeyboardMarkup (make_keyboard boards)) false ;;;
              modify (set_user_data (insert "state" (VState BOARD_CONFIG))) ;;;
              ret PyNone
            else
              modify (set_user_data (insert "boardconfig" (VStr board0))) ;;;
              show_firmware_menu ;;;
              ret PyNone
        end
  end.

(** [on_text], branch [State.BOARD_CONFIG] (lines 127-132) *)
Definition on_board_config (L : Lib) (text : string) : M PyVal :=
  if negb (endswith (str_lower L text) "ap") then invalid_input
  else
    modify (set_user_data (insert "boardconfig" (VStr text))) ;;;
    show_firmware_menu ;;;
    ret PyNone.

(** Manifest resolution (lines 144-162). *)
Definition resolve_manifest (L : Lib) (E : Env) (firmware : FirmwareEntry) : M PyVal :=
  let p := urlparse L (fw_url firmware) in
  if String.eqb (netloc p) "appldnld.apple.com" then pzb_buildmanifest L E firmware
  else
    let u := buildmanifest_url L p in
    modify (emit (HttpGet u)) ;;;
    let r := http_get E u in
    if ok r then try_reraise (m <- loads L (body r) ;; ret (PyPlist m)) parse_failed
    else pzb_buildmanifest L E firmware.

(** Manifest query and final report (lines 164-198), on the cached device
    and board config. *)
Definition query_and_report (L : Lib) (device : DeviceDetail) (boardconfig : Value)
    (firmware : FirmwareEntry) (buildmanifest : PyVal) : M PyVal :=
  paths <- try_reraise (lift (manifest_query L buildmanifest boardconfig)) query_failed ;;
  report <- lift (format_report device boardconfig firmware (fst paths) (snd paths)) ;;
  reply_text report ReplyKeyboardRemove true ;;;
  modify (set_user_data (fun _ => ∅)) ;;;
  ret PyNone.

(** [on_text], branch [State.FIRMWARE] (lines 134-198) *)
Definition on_firmware (L : Lib) (E : Env) (text : string) : M PyVal :=
  ud <- gets user_data ;;
  match ud !! "device", ud !! "boardconfig" with
  | Some dv, Some boardconfig =>
      device <- lift (as_device dv) ;;
      match List.find (fun x => String.eqb (fw_version x) text) (dd_firmwares device) with
      | None => invalid_input
      | Some firmware =>
          buildmanifest <- resolve_manifest L E firmware ;;
          query_and_report L device boardconfig firmware buildmanifest
      end
  | _, _ => invalid_state
  end.

(** [ctx.user_data.setdefault(k, v)] *)
Definition setdefault (k : string) (v : Value) (ud : gmap string Value) : gmap string Value :=
  match ud !! k with
  | Some _ => ud
  | None => <[k := v]> ud
  end.

(** [on_text] *)
Definition on_text (L : Lib) (E : Env) (text : string) : M PyVal :=
  modify (set_user_data (setdefault "state" (VState NONE))) ;;;
  ud <- gets user_data ;;
  match ud !! "state" with
  | None => raise KeyError
  | Some st =>
      if state_is st DEVICE_TYPE then on_device_type E text
      else if state_is st DEVICE_MODEL then on_device_model L E text
      else if state_is st BOARD_CONFIG then on_board_config L text
      else if state_is st FIRMWARE then on_firmware L E text
      else invalid_state ;;; ret PyNone
  end.

(** ** The process: one [user_data] per conversation, everything else shared *)

(** The dispatcher hands every handler call the [user_data] of the
    conversation the update belongs to (a [defaultdict(dict)]: a fresh empty
    dictionary on first access) and the one process-wide [bot_data]. *)
Record Process := {
  sessions : gmap Z (gmap string Value);
  proc_bot_data : gmap string (list DeviceSummary);
  proc_cwd : string;
  proc_dirs : gset string;
  proc_trace : list Event;
}.

Definition session_of (conv : Z) (p : Process) : gmap string Value :=
  default ∅ (sessions p !! conv).

Definition enter (conv : Z) (p : Process) : St :=
  {| user_data := session_of conv p; bot_data := proc_bot_data p; cwd := proc_cwd p;
     dirs := proc_dirs p; trace := proc_trace p |}.

Definition leave (conv : Z) (s : St) (p : Process) : Process :=
  {| sessions := <[conv := user_data s]> (sessions p); proc_bot_data := bot_data s;
     proc_cwd := cwd s; proc_dirs := dirs s; proc_trace := trace s |}.

Inductive Update :=
  | StartCommand (conv : Z)
  | TextMessage (conv : Z) (E : Env) (text : string).

(** A handler that raises leaves its mutations behind: the dispatcher logs
    the exception and goes on. *)
Definition dispatch (L : Lib) (u : Update) (p : Process) : Process :=
  match u with
  | StartCommand conv => leave conv (snd (start (enter conv p))) p
  | TextMessage conv E text => leave conv (snd (on_text L E text (enter conv p))) p
  end.

Definition initial (dir : string) : Process :=
  {| sessions := ∅; proc_bot_data := ∅; proc_cwd := dir; proc_dirs := {[dir]};
     proc_trace := [] |}.

Definition run (L : Lib) (us : list Update) (p : Process) : Process :=
  fold_left (fun p u => dispatch L u p) us p.

Inductive reachable (L : Lib) : Process → Prop :=
  | reachable_initial dir : reachable L (initial dir)
  | reachable_dispatch u p : reachable L p → reachable L (dispatch L u p).

(** The stored step of a session, [State.NONE] standing for "no step". *)
Definition step_of (ud : gmap string Value) : option State :=
  match ud !! "state" with
  | Some (VState s) => Some s
  | _ => None
  end.

(** ** Sample data *)

Definition ex_urlparse (u : string) : ParseResult :=
  match String.index 0 "://" u with
  | None =>
      {| scheme := EmptyString; netloc := EmptyString; path := u; params := EmptyString;
         query := EmptyString; fragment := EmptyString |}
  | Some i =>
      let rest := substring (i + 3) (String.length u - (i + 3)) u in
      let j := default (String.length rest) (String.index 0 "/" rest) in
      {| scheme := substring 0 i u; netloc := substring 0 j rest;
         path := substring j (String.length rest - j) rest;
         params := EmptyString; query := EmptyString; fragment := EmptyString |}
  end.

Definition ex_urlunparse (p : ParseResult) : string :=
  scheme p ++ "://" ++ netloc p ++ path p.

Definition ex_component (p : string) : plist :=
  PDict [("Info", PDict [("Path", PString p)])].

Definition ex_identity (board : string) (components : list (string * plist)) : plist :=
  PDict [("Info", PDict [("DeviceClass", PString board)]); ("Manifest", PDict components)].

Definition ex_manifest : plist :=
  PDict [("BuildIdentities",
          PArray [ex_identity "n71ap" [("RestoreSEP", ex_component "sep-n71.im4p")];
                  ex_identity "n71map"
                    [("RestoreSEP", ex_component "sep-n71m.im4p");
                     ("BasebandFirmware", ex_component "Mav13.bbfw")];
                  ex_identity "N71mAP" [];
                  ex_identity "j42dap" []])].

(** A stand-in for [plistlib.loads]: the one-byte input [01] is the sample
    manifest, anything else does not parse. *)
Definition ex_loads (b : list Byte.byte) : option plist :=
  match b with
  | [Byte.x01] => Some ex_manifest
  | _ => None
  end.

Definition ex_lib : Lib :=
  {| str_lower := lower; urlparse := ex_urlparse; urlunparse := ex_urlunparse;
     plistlib_loads := ex_loads |}.

Definition ex_fw_new : FirmwareEntry :=
  {| fw_version := "14.2"; fw_buildid := "18B92";
     fw_url := "https://updates.cdn-apple.com/2020/ios/iPhone_14.2_Restore.ipsw";
     fw_signed := true |}.

Definition ex_fw_old : FirmwareEntry :=
  {| fw_version := "9.0"; fw_buildid := "13A344";
     fw_url := "http://appldnld.apple.com/ios9/iPhone8,1_9.0_Restore.ipsw";
     fw_signed := true |}.

Definition ex_fw_unsigned : FirmwareEntry :=
  {| fw_version := "13.0"; fw_buildid := "17A577";
     fw_url := "https://updates.cdn-apple.com/2019/ios/iPhone_13.0_Restore.ipsw";
     fw_signed := false |}.

Definition ex_device : DeviceDetail :=
  {| dd_name := "iPhone 6s"; dd_identifier := "iPhone8,1";
     dd_boards := [ {| be_boardconfig := "N71AP" |}; {| be_boardconfig := "N71mAP" |};
                    {| be_boardconfig := "N71DEV" |} ];
     dd_firmwares := [ex_fw_new; ex_fw_old; ex_fw_unsigned] |}.

(** one eligible board, nothing signed *)
Definition ex_device_unsigned : DeviceDetail :=
  {| dd_name := "iPhone 3G"; dd_identifier := "iPhone1,2";
     dd_boards := [ {| be_boardconfig := "n82ap" |} ];
     dd_firmwares := [ex_fw_unsigned] |}.

Definition ex_devices : list DeviceSummary :=
  [ {| ds_identifier := "iPhone1,2"; ds_name := "iPhone 3G" |};
    {| ds_identifier := "iPhone8,1"; ds_name := "iPhone 6s" |};
    {| ds_identifier := "iPad4,1"; ds_name := "iPad Air" |} ].

Definition ex_env : Env :=
  {| api_devices := {| ok := true; body := ex_devices |};
     api_device := fun i =>
       {| ok := true; body := if String.eqb i "iPhone1,2" then ex_device_unsigned else ex_device |};
     http_get := fun _ => {| ok := true; body := [Byte.x01] |};
     pzb_polls := fun _ => 2;
     pzb_output := fun _ => Some [Byte.x01];
     mkdtemp := "/tmp/tmpa1b2c3" |}.

(** the extraction leaves no file behind *)
Definition ex_env_nofile : Env :=
  {| api_devices := api_devices ex_env; api_device := api_device ex_env;
     http_get := fun _ => {| ok := false; body := [] |};
     pzb_polls := fun _ => 1;
     pzb_output := fun _ => None;
     mkdtemp := "/tmp/tmpa1b2c3" |}.

(** what is fetched or extracted does not parse *)
Definition ex_env_garbage : Env :=
  {| api_devices := api_devices ex_env; api_device := api_device ex_env;
     http_get := fun _ => {| ok := true; body := [Byte.xff] |};
     pzb_polls := fun _ => 0;
     pzb_output := fun _ => Some [Byte.xff];
     mkdtemp := "/tmp/tmpa1b2c3" |}.

Definition ex_st (ud : gmap string Value) : St :=
  {| user_data := ud; bot_data := {["devices" := ex_devices]}; cwd := "/srv/sepfinder";
     dirs := {["/srv/sepfinder"]}; trace := [] |}.

(** ** Vocabulary of the properties *)

Local Open Scope list_scope.

(** Appending several events at once. *)
Definition emits (evs : list Event) (s : St) : St :=
  {| user_data := user_data s; bot_data := bot_data s; cwd := cwd s;
     dirs := dirs s; trace := trace s ++ evs |}.

Fixpoint poll_events (n : nat) : list Event :=
  match n with
  | O => []
  | S k => SendChatAction :: Sleep 1 :: poll_events k
  end.

(** [wp m s Q]: running [m] from [s] ends in a result and a state that
    satisfy [Q]. *)
Definition wp {A} (m : M A) (s : St) (Q : Res A → St → Prop) : Prop :=
  Q (fst (m s)) (snd (m s)).

Definition recognized (v : Value) : bool :=
  state_is v DEVICE_TYPE || state_is v DEVICE_MODEL || state_is v BOARD_CONFIG
  || state_is v FIRMWARE.

Definition is_idle (ud : gmap string Value) : Prop :=
  ud !! "state" = None ∨ ud !! "state" = Some (VState NONE).

Inductive rejected (L : Lib) (s : St) (text : string) : Prop :=
  | rejected_device_type :
      step_of (user_data s) = Some DEVICE_TYPE →
      DEVICE_TYPES !! text = None →
      rejected L s text
  | rejected_device_model l :
      step_of (user_data s) = Some DEVICE_MODEL →
      bot_data s !! "devices" = Some l →
      Forall (fun x => ds_name x ≠ text) l →
      rejected L s text
  | rejected_board_config :
      step_of (user_data s) = Some BOARD_CONFIG →
      endswith (str_lower L text) "ap" = false →
      rejected L s text
  | rejected_firmware d bc :
      step_of (user_data s) = Some FIRMWARE →
      user_data s !! "device" = Some (VDevice d) →
      user_data s !! "boardconfig" = Some bc →
      Forall (fun x => fw_version x ≠ text) (dd_firmwares d) →
      rejected L s text.

Definition is_HttpGet (e : Event) : bool :=
  match e with
  | HttpGet _ => true
  | _ => false
  end.

Definition extracting : Event :=
  Reply "Extracting BuildManifest, please wait..." NoMarkup false.

Definition extraction_failed : Event :=
  Reply "Unable to extract BuildManifest for the selected firmware, please try again later."
    NoMarkup false.

Definition pzb_argv (fw : FirmwareEntry) : list string :=
  ["pzb"; fw_url fw; "-g"; "BuildManifest.plist"].

Definition parse_failed_event : Event :=
  Reply "Unable to parse BuildManifest, please try again later." NoMarkup false.

Definition query_failed_event : Event :=
  Reply "Unable to get data from BuildManifest, please try again later." NoMarkup false.

(** the sibling URL the direct fetch goes to *)
Definition sibling_url (L : Lib) (fw : FirmwareEntry) : string :=
  buildmanifest_url L (urlparse L (fw_url fw)).

Definition legacy (L : Lib) (fw : FirmwareEntry) : bool :=
  String.eqb (netloc (urlparse L (fw_url fw))) "appldnld.apple.com".

(** what the direct attempt adds to the trace before any extraction *)
Definition direct_events (L : Lib) (fw : FirmwareEntry) : list Event :=
  if legacy L fw then [] else [HttpGet (sibling_url L fw)].

(** resolution ends up in [pzb_buildmanifest] *)
Definition takes_extraction (L : Lib) (E : Env) (fw : FirmwareEntry) : bool :=
  legacy L fw || negb (ok (http_get E (sibling_url L fw))).

(** a session at the firmware step with [text] naming the firmware [fw] *)
Record selects (s : St) (text : string) (d : DeviceDetail) (bc : Value) (fw : FirmwareEntry)
    : Prop := {
  sel_step : step_of (user_data s) = Some FIRMWARE;
  sel_device : user_data s !! "device" = Some (VDevice d);
  sel_boardconfig : user_data s !! "boardconfig" = Some bc;
  sel_firmware : List.find (fun x => String.eqb (fw_version x) text) (dd_firmwares d) = Some fw;
}.

Definition ex_selected : gmap string Value :=
  {["state" := VState FIRMWARE; "device" := VDevice ex_device; "boardconfig" := VStr "N71mAP"]}.

(** the state [pzb_buildmanifest] leaves behind when the extraction
    produced no file *)
Definition after_failed_extraction (E : Env) (fw : FirmwareEntry) (s : St) : St :=
  {| user_data := user_data s; bot_data := bot_data s; cwd := mkdtemp E;
     dirs := ({[mkdtemp E]} ∪ dirs s) ∖ {[mkdtemp E]};
     trace := trace s ++ [extracting; Popen (pzb_argv fw)]
              ++ poll_events (pzb_polls E (fw_url fw)) ++ [extraction_failed] |}.

(** the board-config field of a build identity *)
Definition board_field (x : plist) : option string :=
  match plist_getitem x "Info" with
  | inr info =>
      match plist_getitem info "DeviceClass" with
      | inr (PString b) => Some b
      | _ => None
      end
  | inl _ => None
  end.

Definition board_equals (L : Lib) (bc : string) (x : plist) : Prop :=
  ∃ b, board_field x = Some b ∧ str_lower L b = str_lower L bc.

Definition board_differs (L : Lib) (bc : string) (x : plist) : Prop :=
  ∃ b, board_field x = Some b ∧ str_lower L b ≠ str_lower L bc.

(** The path of a component as the spec words it: its [Path] if the
    component is present, else the literal ["None"]. *)
Definition spec_component_path (m : list (string * plist)) (c : string) : exn + plist :=
  match dict_get c m with
  | Some component => info <-' plist_getitem component "Info" ;; plist_getitem info "Path"
  | None => inr (PString "None")
  end.

(** what a session holds under the three keys the handlers use *)
Definition view (ud : gmap string Value) : option Value * option Value * option Value :=
  (ud !! "state", ud !! "device", ud !! "boardconfig").

Definition unsigned_only (d : DeviceDetail) : Prop :=
  List.filter fw_signed (dd_firmwares d) = [].

(** the shapes a session goes through *)
Definition session_shape (v : option Value * option Value * option Value) : Prop :=
  match v with
  | (None, None, None) => True
  | (Some (VState NONE), None, None) => True
  | (Some (VState DEVICE_TYPE), None, None) => True
  | (Some (VState DEVICE_MODEL), None, None) => True
  | (Some (VState DEVICE_MODEL), Some (VDevice d), Some (VStr _)) => unsigned_only d
  | (Some (VState BOARD_CONFIG), Some (VDevice _), None) => True
  | (Some (VState BOARD_CONFIG), Some (VDevice _), Some (VStr _)) => True
  | (Some (VState FIRMWARE), Some (VDevice d), Some (VStr _)) => ¬ unsigned_only d
  | _ => False
  end.

Definition session_inv (ud : gmap string Value) : Prop := session_shape (view ud).

Definition ex_stuck : Process :=
  run ex_lib [StartCommand 2; TextMessage 2 ex_env "iPhone"; TextMessage 2 ex_env "iPhone 3G"]
    (initial "/srv/sepfinder").




(** conversation 1 awaits a device type, conversation 2 a device model *)
Definition ex_two : Process :=
  run ex_lib [StartCommand 1; StartCommand 2; TextMessage 2 ex_env "iPad"]
    (initial "/srv/sepfinder").


Definition invalid_state_event : Event :=
  Reply "Invalid state. Please start over using /start." ReplyKeyboardRemove false.



(** a conversation that sent text without ever sending /start *)
Definition ex_greeted : Process :=
  run ex_lib [TextMessage 7 ex_env "hello"] (initial "/srv/sepfinder").

(** ** Vocabulary of the further properties *)

(** rows of two, the last row possibly of one *)
Fixpoint chunk2 (items : list string) : list (list string) :=
  match items with
  | [] => []
  | [x] => [[x]]
  | x :: y :: rest => [x; y] :: chunk2 rest
  end.

(** the devices of a category: [x['identifier'].startswith(device_type)] *)
Definition devices_of_type (code : string) (all : list DeviceSummary) : list DeviceSummary :=
  List.filter (fun x => startswith (ds_identifier x) code) all.

(** the boards offered: DEV boards filtered out *)
Definition eligible_boards (L : Lib) (d : DeviceDetail) : list string :=
  map be_boardconfig
    (List.filter (fun x => endswith (str_lower L (be_boardconfig x)) "ap") (dd_boards d)).

(** the versions offered: signed firmwares only *)
Definition signed_versions (d : DeviceDetail) : list string :=
  map fw_version (List.filter fw_signed (dd_firmwares d)).

Definition devices_url : string := "https://api.ipsw.me/v4/devices".

Definition device_url (x : DeviceSummary) : string :=
  ("https://api.ipsw.me/v4/device/" ++ ds_identifier x)%string.

Definition unavailable_event : Event :=
  Reply "Unable to communicate with ipsw.me API, please try again later." NoMarkup false.

Definition board_prompt : string :=
  ("Please select your board config." ++ newline ++ newline
   ++ "You can get this using the System Info tweak or AIDA64 from the App Store.")%string.

(** a catalog request that comes back not [ok] *)
Inductive unavailable (s : St) (E : Env) (text : string) : string → Prop :=
  | unavailable_devices code :
      step_of (user_data s) = Some DEVICE_TYPE →
      DEVICE_TYPES !! text = Some code →
      ok (api_devices E) = false →
      unavailable s E text devices_url
  | unavailable_device l found :
      step_of (user_data s) = Some DEVICE_MODEL →
      bot_data s !! "devices" = Some l →
      List.find (fun x => String.eqb (ds_name x) text) l = Some found →
      ok (api_device E (ds_identifier found)) = false →
      unavailable s E text (device_url found).

(** a session at the device-model step whose answer [text] names the cached
    device [found], for which the catalog returns the detail [d] *)
Record picks (s : St) (E : Env) (text : string) (found : DeviceSummary) (d : DeviceDetail)
    : Prop := {
  pick_step : step_of (user_data s) = Some DEVICE_MODEL;
  pick_found :
    ∃ l, bot_data s !! "devices" = Some l
         ∧ List.find (fun x => String.eqb (ds_name x) text) l = Some found;
  pick_ok : ok (api_device E (ds_identifier found)) = true;
  pick_detail : body (api_device E (ds_identifier found)) = d;
}.

(** [c in s] for a character *)
Fixpoint has_char (c : ascii) (s : string) : bool :=
  match s with
  | EmptyString => false
  | String c' r => Ascii.eqb c' c || has_char c r
  end.

(** the characters HTML markup is made of *)
Definition markup_chars : list ascii := ["<"%char; ">"%char; dquote; squote].

Definition markup_free (s : string) : Prop :=
  Forall (fun c => has_char c s = false) markup_chars.

(** the steps a text message can lead to from a step; [None]: session cleared *)
Definition successors (st : State) : list (option State) :=
  match st with
  | NONE => [Some NONE]
  | DEVICE_TYPE => [Some DEVICE_TYPE; Some DEVICE_MODEL]
  | DEVICE_MODEL => [Some DEVICE_MODEL; Some BOARD_CONFIG; Some FIRMWARE]
  | BOARD_CONFIG => [Some BOARD_CONFIG; Some FIRMWARE]
  | FIRMWARE => [Some FIRMWARE; None]
  end.

Definition is_invalid_state_reply (e : Event) : bool :=
  match e with
  | Reply text ReplyKeyboardRemove false =>
      String.eqb text "Invalid state. Please start over using /start."
  | _ => false
  end.

(** the keyboard [start] sends *)
Definition start_keyboard : list (list string) :=
  [["iPhone"; "iPad"]; ["iPod touch"; "Apple TV"]].

(** [path] with its last segment replaced by the manifest file name
    (the argument of [_replace] at line 150) *)
Definition sibling_path (path : string) : string :=
  join "/" (removelast (split_on "/" path) ++ ["BuildManifest.plist"]).

(** only a development board *)
Definition ex_device_dev : DeviceDetail :=
  {| dd_name := "iPad Air"; dd_identifier := "iPad4,1";
     dd_boards := [ {| be_boardconfig := "J71DEV" |} ];
     dd_firmwares := [ex_fw_new] |}.

(** one eligible board, signed firmwares *)
Definition ex_device_single : DeviceDetail :=
  {| dd_name := "iPhone 3G"; dd_identifier := "iPhone1,2";
     dd_boards := [ {| be_boardconfig := "n82ap" |}; {| be_boardconfig := "n82dev" |} ];
     dd_firmwares := [ex_fw_unsigned; ex_fw_new; ex_fw_old] |}.

Definition ex_env_boards : Env :=
  {| api_devices := {| ok := true; body := ex_devices |};
     api_device := fun i =>
       {| ok := true;
          body := if String.eqb i "iPad4,1" then ex_device_dev
                  else if String.eqb i "iPhone1,2" then ex_device_single
                  else ex_device |};
     http_get := http_get ex_env; pzb_polls := pzb_polls ex_env;
     pzb_output := pzb_output ex_env; mkdtemp := mkdtemp ex_env |}.

(** the catalog does not answer *)
Definition ex_env_down : Env :=
  {| api_devices := {| ok := false; body := [] |};
     api_device := fun i => {| ok := false; body := ex_device |};
     http_get := http_get ex_env; pzb_polls := pzb_polls ex_env;
     pzb_output := pzb_output ex_env; mkdtemp := mkdtemp ex_env |}.

(** only iPads in the catalog *)
Definition ex_env_ipads : Env :=
  {| api_devices :=
       {| ok := true; body := [ {| ds_identifier := "iPad4,1"; ds_name := "iPad Air" |} ] |};
     api_device := api_device ex_env; http_get := http_get ex_env;
     pzb_polls := pzb_polls ex_env; pzb_output := pzb_output ex_env;
     mkdtemp := mkdtemp ex_env |}.

(** a second temporary directory *)
Definition ex_env_again : Env :=
  {| api_devices := api_devices ex_env; api_device := api_device ex_env;
     http_get := http_get ex_env; pzb_polls := pzb_polls ex_env;
     pzb_output := pzb_output ex_env; mkdtemp := "/tmp/tmpd4e5f6" |}.

(** a manifest whose SEP path is a number, and one whose first identity
    has no [Info] *)
Definition ex_manifest_odd : plist :=
  PDict [("BuildIdentities",
          PArray [PDict [("Info", PDict [("DeviceClass", PString "n71map")]);
                         ("Manifest",
                          PDict [("RestoreSEP",
                                  PDict [("Info", PDict [("Path", PInteger 7)])])])]])].

Definition ex_manifest_broken : plist :=
  PDict [("BuildIdentities",
          PArray [ex_identity "n71ap" []; PDict [("Manifest", PDict [])];
                  ex_identity "n71map" []])].

Definition ex_loads_odd (b : list Byte.byte) : option plist :=
  match b with
  | [Byte.x01] => Some ex_manifest_odd
  | _ => None
  end.

Definition ex_lib_odd : Lib :=
  {| str_lower := lower; urlparse := ex_urlparse; urlunparse := ex_urlunparse;
     plistlib_loads := ex_loads_odd |}.

Definition ex_at (st : State) : St := ex_st {["state" := VState st]}.

Definition ex_manifest_url : string :=
  "https://updates.cdn-apple.com/2020/ios/BuildManifest.plist".

Definition ex_board_step : St :=
  ex_st {["state" := VState BOARD_CONFIG; "device" := VDevice ex_device]}.

Definition ex_selected_other : gmap string Value :=
  {["state" := VState FIRMWARE; "device" := VDevice ex_device; "boardconfig" := VStr "j99ap"]}.

(** * Properties *)

(** ** Symbolic execution of handler runs *)

Lemma poll_loop_run n s : poll_loop n s = (Ret tt, emits (poll_events n) s).
Proof.
  revert s. induction n as [|n IH]; intros s.
  - destruct s. unfold emits. simpl. by rewrite app_nil_r.
  - simpl. unfold bind, modify. simpl. rewrite IH. unfold emits, emit. simpl.
    by rewrite <- !app_assoc.
Qed.

Section wp_rules.
Context {A B : Type}.
Implicit Types (s : St) (Q : Res A → St → Prop).

Lemma wp_ret (a : A) s Q : Q (Ret a) s → wp (ret a) s Q.
Proof. done. Qed.

Lemma wp_raise e s Q : Q (Raise e) s → wp (raise e) s Q.
Proof. done. Qed.

Lemma wp_bind (m : M B) (k : B → M A) s Q :
  wp m s (fun r s' => match r with Ret b => wp (k b) s' Q | Raise e => Q (Raise e) s' end) →
  wp (bind m k) s Q.
Proof. unfold wp, bind. by destruct (m s) as [[b|e] s']. Qed.

Lemma wp_lift (r : exn + A) s Q :
  match r with inl e => Q (Raise e) s | inr a => Q (Ret a) s end → wp (lift r) s Q.
Proof. by destruct r. Qed.

Lemma wp_try_reraise (body : M A) (handler : M PyVal) s Q :
  wp body s (fun r s' =>
    match r with
    | Ret a => Q (Ret a) s'
    | Raise e =>
        wp handler s' (fun r' s'' =>
          match r' with Ret _ => Q (Raise e) s'' | Raise e' => Q (Raise e') s'' end)
    end) →
  wp (try_reraise body handler) s Q.
Proof.
  unfold wp, try_reraise. destruct (body s) as [[a|e] s']; simpl; [done|].
  by destruct (handler s') as [[v|e'] s''].
Qed.

Lemma wp_with_TemporaryDirectory E (body : string → M A) s Q :
  wp (body (mkdtemp E)) (set_dirs (fun ds => {[mkdtemp E]} ∪ ds) s)
     (fun r s' => Q r (set_dirs (fun ds => ds ∖ {[mkdtemp E]}) s')) →
  wp (with_TemporaryDirectory E body) s Q.
Proof. unfold wp, with_TemporaryDirectory. by destruct (body _ _). Qed.
End wp_rules.

Lemma wp_modify f s (Q : Res unit → St → Prop) : Q (Ret tt) (f s) → wp (modify f) s Q.
Proof. done. Qed.

Lemma wp_gets {A} (f : St → A) s (Q : Res A → St → Prop) : Q (Ret (f s)) s → wp (gets f) s Q.
Proof. done. Qed.

Lemma wp_reply_text text markup html s (Q : Res PyVal → St → Prop) :
  Q (Ret PyMessage) (emit (Reply text markup html) s) → wp (reply_text text markup html) s Q.
Proof. done. Qed.

Lemma wp_poll_loop n s (Q : Res unit → St → Prop) :
  Q (Ret tt) (emits (poll_events n) s) → wp (poll_loop n) s Q.
Proof. unfold wp. by rewrite poll_loop_run. Qed.

Lemma wp_Path_cwd s (Q : Res string → St → Prop) :
  (cwd s ∈ dirs s → Q (Ret (cwd s)) s) →
  (cwd s ∉ dirs s → Q (Raise FileNotFoundError) s) →
  wp Path_cwd s Q.
Proof. unfold wp, Path_cwd. case_decide; auto. Qed.

Lemma wp_chdir d s (Q : Res unit → St → Prop) :
  (d ∈ dirs s → Q (Ret tt) (set_cwd d s)) →
  (d ∉ dirs s → Q (Raise FileNotFoundError) s) →
  wp (chdir d) s Q.
Proof. unfold wp, chdir. case_decide; auto. Qed.

Lemma wp_loads L b s (Q : Res plist → St → Prop) :
  match plistlib_loads L b with
  | Some p => Q (Ret p) s
  | None => Q (Raise InvalidFileException) s
  end →
  wp (loads L b) s Q.
Proof. unfold wp, loads. by destruct (plistlib_loads L b). Qed.

(** One step of symbolic execution. *)
Ltac wp_step :=
  lazymatch goal with
  | |- wp (bind _ _) _ _ => apply wp_bind
  | |- wp (ret _) _ _ => apply wp_ret
  | |- wp (raise _) _ _ => apply wp_raise
  | |- wp (lift _) _ _ => apply wp_lift
  | |- wp (modify _) _ _ => apply wp_modify
  | |- wp (gets _) _ _ => apply wp_gets
  | |- wp (reply_text _ _ _) _ _ => apply wp_reply_text
  | |- wp invalid_state _ _ => apply wp_reply_text
  | |- wp invalid_input _ _ => apply wp_reply_text
  | |- wp api_unavailable _ _ => apply wp_reply_text
  | |- wp parse_failed _ _ => apply wp_reply_text
  | |- wp query_failed _ _ => apply wp_reply_text
  | |- wp (poll_loop _) _ _ => apply wp_poll_loop
  | |- wp (try_reraise _ _) _ _ => apply wp_try_reraise
  | |- wp (with_TemporaryDirectory _ _) _ _ => apply wp_with_TemporaryDirectory
  | |- wp Path_cwd _ _ => apply wp_Path_cwd; intros ?
  | |- wp (chdir _) _ _ => apply wp_chdir; intros ?
  | |- wp (loads _ _) _ _ => apply wp_loads
  | |- wp (match ?x with _ => _ end) _ _ => destruct x eqn:?
  | |- wp (if ?x then _ else _) _ _ => destruct x eqn:?
  | |- match ?x with _ => _ end => destruct x eqn:?
  end.

Ltac wp_go := repeat (wp_step; simpl).

(** ** The branch [on_text] takes *)

Lemma step_of_Some ud st : step_of ud = Some st → ud !! "state" = Some (VState st).
Proof.
  unfold step_of. destruct (ud !! "state") as [[]|]; congruence.
Qed.

Lemma set_user_data_id f s : f (user_data s) = user_data s → set_user_data f s = s.
Proof. destruct s. unfold set_user_data. simpl. by intros ->. Qed.

Lemma setdefault_present k v ud : is_Some (ud !! k) → setdefault k v ud = ud.
Proof. intros [w Hw]. unfold setdefault. by rewrite Hw. Qed.

(** [on_text] with a stored step: the branch taken *)
Lemma on_text_branch L E text s st :
  step_of (user_data s) = Some st →
  on_text L E text s =
    match st with
    | NONE => (invalid_state ;;; ret PyNone) s
    | DEVICE_TYPE => on_device_type E text s
    | DEVICE_MODEL => on_device_model L E text s
    | BOARD_CONFIG => on_board_config L text s
    | FIRMWARE => on_firmware L E text s
    end.
Proof.
  intros H%step_of_Some. unfold on_text, bind at 1, modify.
  rewrite set_user_data_id by (apply setdefault_present; eauto).
  unfold bind at 1, gets. rewrite H. by destruct st.
Qed.

Lemma find_name_none text l :
  Forall (fun x => ds_name x ≠ text) l →
  List.find (fun x => String.eqb (ds_name x) text) l = None.
Proof.
  induction 1 as [|x l Hx _ IH]; simpl; [done|].
  destruct (String.eqb_spec (ds_name x) text); [done|apply IH].
Qed.

Lemma find_version_none text l :
  Forall (fun x => fw_version x ≠ text) l →
  List.find (fun x => String.eqb (fw_version x) text) l = None.
Proof.
  induction 1 as [|x l Hx _ IH]; simpl; [done|].
  destruct (String.eqb_spec (fw_version x) text); [done|apply IH].
Qed.

(** ** Rejected input

    C6.  Whatever the step, a text that the step rejects as invalid input
    (a device type outside [DEVICE_TYPES], a name no cached device has, a
    board config that does not end in "ap" case-insensitively, a version no
    firmware of the cached device has) gets the reply "Invalid input." and
    nothing else happens: the whole state, the session's step in
    particular, is as before. *)
Theorem invalid_input_keeps_step L E text s :
  rejected L s text →
  on_text L E text s = (Ret PyMessage, emit (Reply "Invalid input." NoMarkup false) s)
  ∧ step_of (user_data (snd (on_text L E text s))) = step_of (user_data s).
Proof.
  intros Hrej.
  assert (on_text L E text s = (Ret PyMessage, emit (Reply "Invalid input." NoMarkup false) s))
    as Hrun.
  { destruct Hrej as [Hst Hty|l Hst Hbot Hl|Hst Hsuf|d bc Hst Hd Hbc Hl];
      rewrite (on_text_branch _ _ _ _ _ Hst).
    - unfold on_device_type. by rewrite Hty.
    - unfold on_device_model, bind, gets, lift, bot_devices. rewrite Hbot. simpl.
      by rewrite (find_name_none _ _ Hl).
    - unfold on_board_config. by rewrite Hsuf.
    - unfold on_firmware, bind, gets. rewrite Hd, Hbc. simpl.
      by rewrite (find_version_none _ _ Hl). }
  split; [done|]. by rewrite Hrun.
Qed.

Lemma invalid_input_keeps_step_witness :
  on_text ex_lib ex_env "Galaxy S9"
    (ex_st {["state" := VState DEVICE_MODEL]})
  = (Ret PyMessage,
     emit (Reply "Invalid input." NoMarkup false) (ex_st {["state" := VState DEVICE_MODEL]}))
  ∧ step_of (user_data (snd (on_text ex_lib ex_env "Galaxy S9"
                               (ex_st {["state" := VState DEVICE_MODEL]}))))
    = step_of (user_data (ex_st {["state" := VState DEVICE_MODEL]})).
Proof.
  apply (invalid_input_keeps_step ex_lib ex_env "Galaxy S9"
           (ex_st {["state" := VState DEVICE_MODEL]})).
  apply (rejected_device_model _ _ _ ex_devices).
  - reflexivity.
  - reflexivity.
  - repeat constructor; discriminate.
Defined.

(** ** Unrecognized step

    What the last branch of [on_text] does, from any state: the notice is
    sent, the reply keyboard removed, and no entry of the session is
    touched (a missing state has been stored as [State.NONE] on entry). *)
Lemma on_text_unrecognized_state L E text s :
  (∀ v, user_data s !! "state" = Some v → recognized v = false) →
  on_text L E text s =
    (Ret PyNone,
     emit (Reply "Invalid state. Please start over using /start." ReplyKeyboardRemove false)
       (set_user_data (setdefault "state" (VState NONE)) s))
  ∧ (∀ k v, user_data s !! k = Some v →
            user_data (snd (on_text L E text s)) !! k = Some v).
Proof.
  intros Hun.
  assert (on_text L E text s =
    (Ret PyNone,
     emit (Reply "Invalid state. Please start over using /start." ReplyKeyboardRemove false)
       (set_user_data (setdefault "state" (VState NONE)) s))) as Hrun.
  { unfold on_text, bind at 1, modify. unfold bind at 1, gets.
    cbn [user_data set_user_data]. unfold setdefault at 1 2.
    destruct (user_data s !! "state") as [v|] eqn:Hv.
    - rewrite Hv. specialize (Hun v eq_refl). unfold recognized in Hun.
      apply orb_false_elim in Hun as [Hun H4]. apply orb_false_elim in Hun as [Hun H3].
      apply orb_false_elim in Hun as [H1 H2]. by rewrite H1, H2, H3, H4.
    - by rewrite lookup_insert_eq. }
  split; [done|]. intros k v Hk. rewrite Hrun. cbn [snd user_data emit set_user_data].
  unfold setdefault. destruct (user_data s !! "state") eqn:Hs; [done|].
  rewrite lookup_insert_ne; [done|]. intros <-. congruence.
Qed.

(** ** No signed firmware

    C5, as the code has it.  When the cached device has no firmware with
    [signed] true, the firmware menu replies "No signed firmwares found for
    this device." and leaves the session untouched: the step is not reset,
    and the device and board config stay cached. *)
Theorem no_signed_firmware_keeps_session d s :
  user_data s !! "device" = Some (VDevice d) →
  List.filter fw_signed (dd_firmwares d) = [] →
  show_firmware_menu s =
    (Ret PyMessage, emit (Reply "No signed firmwares found for this device." NoMarkup false) s).
Proof.
  intros Hd Hf. unfold show_firmware_menu, bind, gets. rewrite Hd. simpl.
  by rewrite Hf.
Qed.

Lemma no_signed_firmware_keeps_session_witness :
  show_firmware_menu
    (ex_st {["state" := VState BOARD_CONFIG; "device" := VDevice ex_device_unsigned;
             "boardconfig" := VStr "n82ap"]})
  = (Ret PyMessage,
     emit (Reply "No signed firmwares found for this device." NoMarkup false)
       (ex_st {["state" := VState BOARD_CONFIG; "device" := VDevice ex_device_unsigned;
                "boardconfig" := VStr "n82ap"]})).
Proof.
  apply (no_signed_firmware_keeps_session ex_device_unsigned); reflexivity.
Defined.

(** C5 as written fails: after the reply the session is still at its step
    ([BOARD_CONFIG] here), not idle. *)
Lemma no_signed_firmware_not_idle :
  let s' := snd (on_text ex_lib ex_env "n82ap"
                   (ex_st {["state" := VState BOARD_CONFIG;
                            "device" := VDevice ex_device_unsigned]})) in
  trace s' = [Reply "No signed firmwares found for this device." NoMarkup false]
  ∧ step_of (user_data s') = Some BOARD_CONFIG
  ∧ ¬ is_idle (user_data s').
Proof.
  cbv zeta. split; [reflexivity|]. split; [reflexivity|].
  intros [H|H]; vm_compute in H; discriminate.
Qed.

(** ** Manifest resolution *)

Lemma poll_events_no_http n : forallb (fun e => negb (is_HttpGet e)) (poll_events n) = true.
Proof. induction n; simpl; auto. Qed.

Lemma emits_nil s : emits [] s = s.
Proof. destruct s. unfold emits. simpl. by rewrite app_nil_r. Qed.

(** every run of the extraction: what it adds to the trace *)
Lemma pzb_buildmanifest_trace L E fw s :
  ∃ evs, trace (snd (pzb_buildmanifest L E fw s)) = trace s ++ extracting :: evs
         ∧ forallb (fun e => negb (is_HttpGet e)) evs = true
         ∧ (cwd s ∈ dirs s → Popen (pzb_argv fw) ∈ evs).
Proof.
  change (wp (pzb_buildmanifest L E fw) s (fun _ s' =>
    ∃ evs, trace s' = trace s ++ extracting :: evs
           ∧ forallb (fun e => negb (is_HttpGet e)) evs = true
           ∧ (cwd s ∈ dirs s → Popen (pzb_argv fw) ∈ evs))).
  unfold pzb_buildmanifest.
  wp_go; rewrite <- ?app_assoc; simpl;
    (eexists; split; [reflexivity|]; split;
      [simpl; rewrite ?forallb_app; simpl; rewrite ?poll_events_no_http; reflexivity
      |intros; simpl in *;
       first [ by apply list_elem_of_here
             | match goal with
               | H : _ ∉ _ |- _ =>
                   destruct H;
                   first [ by apply elem_of_union_r
                         | by apply elem_of_union_l, elem_of_singleton ]
               end ]]).
Qed.

(** C7.  For a firmware whose download URL has the host
    [appldnld.apple.com], manifest resolution is the extraction fallback
    [pzb_buildmanifest] itself; its run starts with the "Extracting
    BuildManifest" reply, spawns [pzb] (when the working directory exists)
    and makes no HTTP request at all. *)
Theorem legacy_host_uses_extraction L E fw :
  netloc (urlparse L (fw_url fw)) = "appldnld.apple.com" →
  resolve_manifest L E fw = pzb_buildmanifest L E fw
  ∧ ∀ s, ∃ evs,
      trace (snd (resolve_manifest L E fw s)) = trace s ++ extracting :: evs
      ∧ forallb (fun e => negb (is_HttpGet e)) evs = true
      ∧ (cwd s ∈ dirs s → Popen (pzb_argv fw) ∈ evs).
Proof.
  intros Hhost.
  assert (resolve_manifest L E fw = pzb_buildmanifest L E fw) as Heq.
  { unfold resolve_manifest. by rewrite Hhost. }
  split; [done|]. intros s. rewrite Heq. apply pzb_buildmanifest_trace.
Qed.

Lemma legacy_host_uses_extraction_witness :
  resolve_manifest ex_lib ex_env ex_fw_old = pzb_buildmanifest ex_lib ex_env ex_fw_old
  ∧ ∀ s, ∃ evs,
      trace (snd (resolve_manifest ex_lib ex_env ex_fw_old s)) = trace s ++ extracting :: evs
      ∧ forallb (fun e => negb (is_HttpGet e)) evs = true
      ∧ (cwd s ∈ dirs s → Popen (pzb_argv ex_fw_old) ∈ evs).
Proof.
  apply (legacy_host_uses_extraction ex_lib ex_env ex_fw_old). reflexivity.
Defined.

Lemma on_text_selects L E text s d bc fw :
  selects s text d bc fw →
  on_text L E text s =
    (buildmanifest <- resolve_manifest L E fw ;; query_and_report L d bc fw buildmanifest) s.
Proof.
  intros [Hst Hd Hbc Hfw]. rewrite (on_text_branch _ _ _ _ _ Hst).
  unfold on_firmware. unfold bind at 1, gets. rewrite Hd, Hbc.
  unfold bind at 1, lift, as_device, ret. by rewrite Hfw.
Qed.

Lemma resolve_manifest_direct L E fw s :
  legacy L fw = false →
  resolve_manifest L E fw s =
    (if ok (http_get E (sibling_url L fw))
     then try_reraise (m <- loads L (body (http_get E (sibling_url L fw))) ;; ret (PyPlist m))
            parse_failed
     else pzb_buildmanifest L E fw) (emit (HttpGet (sibling_url L fw)) s).
Proof.
  unfold legacy, resolve_manifest, sibling_url. intros ->. reflexivity.
Qed.

(** C8.  At the firmware step, for a firmware with another host: when the
    fetch of the sibling manifest URL succeeds and the body does not parse,
    the handler replies "Unable to parse BuildManifest, please try again
    later." and the parse exception propagates; nothing is extracted.  When
    the body parses, resolution returns it.  Only when the fetch is not
    [ok] does resolution go on into [pzb_buildmanifest]. *)
Theorem direct_parse_failure_is_fatal L E text s d bc fw :
  selects s text d bc fw →
  legacy L fw = false →
  let r := http_get E (sibling_url L fw) in
  (ok r = true → plistlib_loads L (body r) = None →
     on_text L E text s =
       (Raise InvalidFileException, emits [HttpGet (sibling_url L fw); parse_failed_event] s))
  ∧ (ok r = true → ∀ m, plistlib_loads L (body r) = Some m →
       resolve_manifest L E fw s = (Ret (PyPlist m), emit (HttpGet (sibling_url L fw)) s))
  ∧ (ok r = false →
       resolve_manifest L E fw s = pzb_buildmanifest L E fw (emit (HttpGet (sibling_url L fw)) s)).
Proof.
  intros Hsel Hleg r. subst r. repeat split.
  - intros Hok Hparse. rewrite (on_text_selects _ _ _ _ _ _ _ Hsel).
    unfold bind at 1. rewrite resolve_manifest_direct by done. rewrite Hok.
    unfold try_reraise, bind, loads. rewrite Hparse. simpl.
    unfold emits, emit. simpl. by rewrite <- app_assoc.
  - intros Hok m Hparse. rewrite resolve_manifest_direct by done. rewrite Hok.
    unfold try_reraise, bind, loads. by rewrite Hparse.
  - intros Hok. rewrite resolve_manifest_direct by done. by rewrite Hok.
Qed.

Lemma ex_selects text fw :
  List.find (fun x => String.eqb (fw_version x) text) (dd_firmwares ex_device) = Some fw →
  selects (ex_st ex_selected) text ex_device (VStr "N71mAP") fw.
Proof. intros H. by split. Qed.

Lemma direct_parse_failure_is_fatal_witness :
  on_text ex_lib ex_env_garbage "14.2" (ex_st ex_selected) =
    (Raise InvalidFileException,
     emits [HttpGet "https://updates.cdn-apple.com/2020/ios/BuildManifest.plist";
            parse_failed_event] (ex_st ex_selected))
  ∧ resolve_manifest ex_lib ex_env ex_fw_new (ex_st ex_selected) =
      (Ret (PyPlist ex_manifest),
       emit (HttpGet "https://updates.cdn-apple.com/2020/ios/BuildManifest.plist")
         (ex_st ex_selected))
  ∧ resolve_manifest ex_lib ex_env_nofile ex_fw_new (ex_st ex_selected) =
      pzb_buildmanifest ex_lib ex_env_nofile ex_fw_new
        (emit (HttpGet "https://updates.cdn-apple.com/2020/ios/BuildManifest.plist")
           (ex_st ex_selected)).
Proof.
  split; [|split].
  - apply (direct_parse_failure_is_fatal ex_lib ex_env_garbage "14.2" (ex_st ex_selected)
             ex_device (VStr "N71mAP") ex_fw_new); [by apply ex_selects|reflexivity..].
  - apply (direct_parse_failure_is_fatal ex_lib ex_env "14.2" (ex_st ex_selected)
             ex_device (VStr "N71mAP") ex_fw_new); [by apply ex_selects|reflexivity..].
  - apply (direct_parse_failure_is_fatal ex_lib ex_env_nofile "14.2" (ex_st ex_selected)
             ex_device (VStr "N71mAP") ex_fw_new); [by apply ex_selects|reflexivity..].
Defined.

Lemma pzb_buildmanifest_nofile L E fw s :
  cwd s ∈ dirs s →
  pzb_output E (fw_url fw) = None →
  pzb_buildmanifest L E fw s = (Ret PyMessage, after_failed_extraction E fw s).
Proof.
  intros Hcwd Hout. unfold pzb_buildmanifest, bind at 1, reply_text, bind at 1, modify, ret.
  unfold with_TemporaryDirectory, bind at 1, Path_cwd.
  cbn [cwd dirs set_dirs emit].
  rewrite decide_True by (by apply elem_of_union_r).
  unfold bind at 1, chdir. cbn [cwd dirs set_dirs emit].
  rewrite decide_True by (by apply elem_of_union_l, elem_of_singleton).
  unfold bind at 1, modify. unfold bind at 1. rewrite poll_loop_run, Hout.
  unfold reply_text, bind, modify, ret, after_failed_extraction, emits, emit, set_dirs, set_cwd.
  simpl. by rewrite <- !app_assoc.
Qed.

(** C10.  At the firmware step, when resolution ends up in the extraction
    and the subprocess leaves no [BuildManifest.plist], [pzb_buildmanifest]
    returns the [Message] object of its failure reply; the manifest query on
    that value raises [TypeError]; so the handler sends the
    extraction-failure reply, then the query-failure reply, and raises: no
    report is sent and the session is not cleared. *)
Theorem missing_manifest_reaches_query L E text s d bc fw :
  selects s text d bc fw →
  takes_extraction L E fw = true →
  cwd s ∈ dirs s →
  pzb_output E (fw_url fw) = None →
  let s1 := emits (direct_events L fw) s in
  pzb_buildmanifest L E fw s1 = (Ret PyMessage, after_failed_extraction E fw s1)
  ∧ manifest_query L PyMessage bc = inl TypeError
  ∧ on_text L E text s =
      (Raise TypeError, emit query_failed_event (after_failed_extraction E fw s1)).
Proof.
  intros Hsel Htake Hcwd Hout s1.
  assert (pzb_buildmanifest L E fw s1 = (Ret PyMessage, after_failed_extraction E fw s1)) as Hpzb.
  { by apply pzb_buildmanifest_nofile. }
  assert (resolve_manifest L E fw s = pzb_buildmanifest L E fw s1) as Hres.
  { subst s1. unfold direct_events. unfold takes_extraction in Htake.
    destruct (legacy L fw) eqn:Hleg.
    - rewrite emits_nil. unfold resolve_manifest. unfold legacy in Hleg. by rewrite Hleg.
    - rewrite resolve_manifest_direct by done. simpl in Htake.
      apply negb_true_iff in Htake. by rewrite Htake. }
  split; [done|]. split; [done|].
  rewrite (on_text_selects _ _ _ _ _ _ _ Hsel). unfold bind at 1. by rewrite Hres, Hpzb.
Qed.

Lemma missing_manifest_reaches_query_witness :
  pzb_buildmanifest ex_lib ex_env_nofile ex_fw_old (ex_st ex_selected) =
    (Ret PyMessage, after_failed_extraction ex_env_nofile ex_fw_old (ex_st ex_selected))
  ∧ manifest_query ex_lib PyMessage (VStr "N71mAP") = inl TypeError
  ∧ on_text ex_lib ex_env_nofile "9.0" (ex_st ex_selected) =
      (Raise TypeError,
       emit query_failed_event
         (after_failed_extraction ex_env_nofile ex_fw_old (ex_st ex_selected))).
Proof.
  pose proof (missing_manifest_reaches_query ex_lib ex_env_nofile "9.0" (ex_st ex_selected)
                ex_device (VStr "N71mAP") ex_fw_old) as H.
  rewrite emits_nil in H. apply H.
  - by apply ex_selects.
  - reflexivity.
  - vm_compute. reflexivity.
  - reflexivity.
Defined.

Lemma tmpdir_removed (d : string) (ds : gset string) : d ∉ ds → ({[d]} ∪ ds) ∖ {[d]} = ds.
Proof.
  intros Hd. apply set_eq. intros x.
  rewrite elem_of_difference, elem_of_union, elem_of_singleton.
  split; [by intros [[->|?] ?]|]. intros Hx. split; [by right|]. by intros ->.
Qed.

(** ** The temporary workspace

    C2.  What every exit path of [pzb_buildmanifest] leaves behind, started
    in an existing working directory with a fresh temporary directory: the
    temporary directory is removed on every path, but the working directory
    is restored only on the path that parsed a manifest.  When no file was
    extracted, and when the file does not parse, the process is left
    standing in the removed directory. *)
Theorem pzb_buildmanifest_exit_paths L E fw s :
  cwd s ∈ dirs s →
  mkdtemp E ∉ dirs s →
  let r := fst (pzb_buildmanifest L E fw s) in
  let s' := snd (pzb_buildmanifest L E fw s) in
  dirs s' = dirs s
  ∧ match pzb_output E (fw_url fw) with
    | None => r = Ret PyMessage ∧ cwd s' = mkdtemp E ∧ cwd s' ∉ dirs s'
    | Some b =>
        match plistlib_loads L b with
        | None => r = Raise InvalidFileException ∧ cwd s' = mkdtemp E ∧ cwd s' ∉ dirs s'
        | Some m => r = Ret (PyPlist m) ∧ cwd s' = cwd s
        end
    end.
Proof.
  intros Hcwd Hfresh.
  change (wp (pzb_buildmanifest L E fw) s (fun r s' =>
    dirs s' = dirs s
    ∧ match pzb_output E (fw_url fw) with
      | None => r = Ret PyMessage ∧ cwd s' = mkdtemp E ∧ cwd s' ∉ dirs s'
      | Some b =>
          match plistlib_loads L b with
          | None => r = Raise InvalidFileException ∧ cwd s' = mkdtemp E ∧ cwd s' ∉ dirs s'
          | Some m => r = Ret (PyPlist m) ∧ cwd s' = cwd s
          end
      end)).
  unfold pzb_buildmanifest.
  wp_go; simpl in *;
    try match goal with
        | H : _ ∉ {[_]} ∪ _ |- _ =>
            destruct H;
            first [ by apply elem_of_union_r | by apply elem_of_union_l, elem_of_singleton ]
        end.
  all: rewrite tmpdir_removed by done.
  all: by repeat split.
Qed.

Lemma pzb_buildmanifest_exit_paths_witness :
  let r := fst (pzb_buildmanifest ex_lib ex_env_nofile ex_fw_old (ex_st ex_selected)) in
  let s' := snd (pzb_buildmanifest ex_lib ex_env_nofile ex_fw_old (ex_st ex_selected)) in
  dirs s' = {["/srv/sepfinder"]}
  ∧ r = Ret PyMessage ∧ cwd s' = "/tmp/tmpa1b2c3" ∧ cwd s' ∉ dirs s'.
Proof.
  apply (pzb_buildmanifest_exit_paths ex_lib ex_env_nofile ex_fw_old (ex_st ex_selected)).
  - vm_compute. reflexivity.
  - vm_compute. discriminate.
Defined.

(** ** The manifest query *)

Lemma board_field_lower_eq L x b bc :
  board_field x = Some b →
  (info <-' plist_getitem x "Info" ;;
   dc <-' plist_getitem info "DeviceClass" ;;
   lower_eq L dc (VStr bc)) = inr (String.eqb (str_lower L b) (str_lower L bc)).
Proof.
  unfold board_field. destruct (plist_getitem x "Info") as [e|info]; [done|]. simpl.
  destruct (plist_getitem info "DeviceClass") as [e|[]]; try done. simpl. congruence.
Qed.

Lemma find_buildidentity_skip L bc x rest :
  board_differs L bc x →
  find_buildidentity L (x :: rest) (VStr bc) = find_buildidentity L rest (VStr bc).
Proof.
  intros (b & Hb & Hne). simpl.
  pose proof (board_field_lower_eq L x b bc Hb) as Heq. unfold ebind in *.
  destruct (plist_getitem x "Info") as [e|info]; [done|].
  destruct (plist_getitem info "DeviceClass") as [e|dc]; [done|].
  rewrite Heq. by apply String.eqb_neq in Hne as ->.
Qed.

Lemma find_buildidentity_hit L bc x rest :
  board_equals L bc x → find_buildidentity L (x :: rest) (VStr bc) = inr x.
Proof.
  intros (b & Hb & He). simpl.
  pose proof (board_field_lower_eq L x b bc Hb) as Heq. unfold ebind in *.
  destruct (plist_getitem x "Info") as [e|info]; [done|].
  destruct (plist_getitem info "DeviceClass") as [e|dc]; [done|].
  rewrite Heq. by apply String.eqb_eq in He as ->.
Qed.

Lemma find_buildidentity_first L bc pre x post :
  Forall (board_differs L bc) pre →
  board_equals L bc x →
  find_buildidentity L (pre ++ x :: post) (VStr bc) = inr x.
Proof.
  induction 1 as [|y pre Hy _ IH]; intros Hx.
  - by apply find_buildidentity_hit.
  - rewrite <- app_comm_cons, find_buildidentity_skip by done. by apply IH.
Qed.

Lemma find_buildidentity_none L bc ids :
  Forall (board_differs L bc) ids → find_buildidentity L ids (VStr bc) = inl StopIteration.
Proof.
  induction 1 as [|y ids Hy _ IH]; [done|]. by rewrite find_buildidentity_skip.
Qed.

(** what the search returns is an identity of the list whose board-config
    field equals the requested one *)
Lemma find_buildidentity_found L bc ids x :
  find_buildidentity L ids (VStr bc) = inr x → x ∈ ids ∧ board_equals L bc x.
Proof.
  induction ids as [|y ids IH]; [done|]. simpl.
  destruct (plist_getitem y "Info") as [e|info] eqn:Hinfo; [done|]. simpl.
  destruct (plist_getitem info "DeviceClass") as [e|dc] eqn:Hdc; [done|]. simpl.
  destruct dc as [| |b| | | | |]; simpl; try done.
  destruct (String.eqb_spec (str_lower L b) (str_lower L bc)) as [Heq|Hne].
  - intros [= <-]. split; [apply list_elem_of_here|]. exists b.
    unfold board_field. by rewrite Hinfo, Hdc.
  - intros [Hin Hx]%IH. split; [by apply list_elem_of_further|done].
  - intros [Hin Hx]%IH. split; [by apply list_elem_of_further|done].
Qed.

Lemma find_buildidentity_unreadable L bc pre y post e :
  Forall (board_differs L bc) pre →
  (info <-' plist_getitem y "Info" ;; plist_getitem info "DeviceClass") = inl e →
  find_buildidentity L (pre ++ y :: post) (VStr bc) = inl e.
Proof.
  intros Hpre Hy. induction Hpre as [|x pre Hx _ IH].
  - simpl. destruct (plist_getitem y "Info") as [e'|info]; simpl in *; [done|].
    by rewrite Hy.
  - by rewrite <- app_comm_cons, find_buildidentity_skip.
Qed.

Lemma component_path_dict x m c :
  plist_getitem x "Manifest" = inr (PDict m) →
  component_path x c = spec_component_path m c.
Proof.
  intros Hm. unfold component_path, spec_component_path. rewrite Hm. simpl.
  by destruct (dict_get c m).
Qed.

(** C9, as the code has it.  On a manifest whose [BuildIdentities] is a
    list, the identities are gone through in order.  If [x] is the first
    identity whose board-config field equals the requested board config
    case-insensitively and every identity before it has a board-config
    field, which then differs, the query answers from [x]: with [x]'s
    manifest a dictionary, each of the SEP and Baseband paths is the
    component's [Path] when the component is in it, and the string "None"
    when it is not.  If no identity of the list has a board-config field
    equal to the requested one, the query raises, and the handler replies
    "Unable to get data from BuildManifest" and raises as well.  An identity
    whose board-config field cannot be read, met before any match, makes
    the query raise on it. *)
Theorem manifest_query_first_match L buildmanifest ids bc :
  py_getitem buildmanifest "BuildIdentities" = inr (PArray ids) →
  (∀ pre x post m,
     ids = pre ++ x :: post →
     Forall (board_differs L bc) pre →
     board_equals L bc x →
     plist_getitem x "Manifest" = inr (PDict m) →
     manifest_query L buildmanifest (VStr bc) =
       (sep_path <-' spec_component_path m "RestoreSEP" ;;
        bb_path <-' spec_component_path m "BasebandFirmware" ;;
        inr (sep_path, bb_path)))
  ∧ ((∀ x, x ∈ ids → ¬ board_equals L bc x) →
     ∃ e, manifest_query L buildmanifest (VStr bc) = inl e
          ∧ ∀ s, try_reraise (lift (manifest_query L buildmanifest (VStr bc))) query_failed s =
                   (Raise e, emit query_failed_event s))
  ∧ (∀ pre y post e,
       ids = pre ++ y :: post →
       Forall (board_differs L bc) pre →
       (info <-' plist_getitem y "Info" ;; plist_getitem info "DeviceClass") = inl e →
       manifest_query L buildmanifest (VStr bc) = inl e).
Proof.
  intros Hids. split; [|split].
  - intros pre x post m -> Hpre Hx Hm. unfold manifest_query. rewrite Hids. simpl.
    rewrite find_buildidentity_first by done. simpl.
    by rewrite !(component_path_dict x m).
  - intros Hnone.
    assert (∃ e, find_buildidentity L ids (VStr bc) = inl e) as [e He].
    { destruct (find_buildidentity L ids (VStr bc)) as [e|x] eqn:Hfind; [by exists e|].
      apply find_buildidentity_found in Hfind as [Hin Hx]. by destruct (Hnone x Hin). }
    exists e. unfold manifest_query. rewrite Hids. simpl. by rewrite He.
  - intros pre y post e -> Hpre Hy. unfold manifest_query. rewrite Hids. simpl.
    by rewrite (find_buildidentity_unreadable L bc pre y post e).
Qed.

(** C9 as written fails: in this manifest the first identity whose
    board-config field equals "n71map" is the third one, and no identity
    before it has a field equal to it, yet the query selects nothing: it
    raises [KeyError] on the second identity, which has no [Info]. *)
Lemma unreadable_identity_blocks_match :
  py_getitem (PyPlist ex_manifest_broken) "BuildIdentities" =
    inr (PArray [ex_identity "n71ap" []; PDict [("Manifest", PDict [])];
                 ex_identity "n71map" []])
  ∧ ¬ board_equals ex_lib "n71map" (ex_identity "n71ap" [])
  ∧ ¬ board_equals ex_lib "n71map" (PDict [("Manifest", PDict [])])
  ∧ board_equals ex_lib "n71map" (ex_identity "n71map" [])
  ∧ manifest_query ex_lib (PyPlist ex_manifest_broken) (VStr "n71map") = inl KeyError.
Proof.
  split; [reflexivity|]. split; [|split; [|split]].
  - intros (b & Hb & He). vm_compute in Hb. injection Hb as <-. discriminate.
  - intros (b & Hb & He). discriminate.
  - exists "n71map". by split.
  - reflexivity.
Qed.

Lemma ex_manifest_ids :
  py_getitem (PyPlist ex_manifest) "BuildIdentities" =
    inr (PArray [ex_identity "n71ap" [("RestoreSEP", ex_component "sep-n71.im4p")];
                 ex_identity "n71map"
                   [("RestoreSEP", ex_component "sep-n71m.im4p");
                    ("BasebandFirmware", ex_component "Mav13.bbfw")];
                 ex_identity "N71mAP" [];
                 ex_identity "j42dap" []]).
Proof. reflexivity. Qed.

Lemma manifest_query_first_match_witness :
  manifest_query ex_lib (PyPlist ex_manifest) (VStr "N71mAP") =
    inr (PString "sep-n71m.im4p", PString "Mav13.bbfw")
  ∧ manifest_query ex_lib (PyPlist ex_manifest) (VStr "N71AP") =
    inr (PString "sep-n71.im4p", PString "None")
  ∧ (∃ e, manifest_query ex_lib (PyPlist ex_manifest) (VStr "n69ap") = inl e
          ∧ ∀ s, try_reraise (lift (manifest_query ex_lib (PyPlist ex_manifest) (VStr "n69ap")))
                   query_failed s
                 = (Raise e, emit query_failed_event s))
  ∧ manifest_query ex_lib (PyPlist ex_manifest_broken) (VStr "n71map") = inl KeyError.
Proof.
  split; [|split; [|split]].
  - apply (proj1 (manifest_query_first_match ex_lib _ _ "N71mAP" ex_manifest_ids)
             [ex_identity "n71ap" [("RestoreSEP", ex_component "sep-n71.im4p")]]
             (ex_identity "n71map"
                [("RestoreSEP", ex_component "sep-n71m.im4p");
                 ("BasebandFirmware", ex_component "Mav13.bbfw")])
             [ex_identity "N71mAP" []; ex_identity "j42dap" []]
             [("RestoreSEP", ex_component "sep-n71m.im4p");
              ("BasebandFirmware", ex_component "Mav13.bbfw")]).
    + reflexivity.
    + repeat constructor. exists "n71ap". split; [reflexivity|discriminate].
    + exists "n71map". split; reflexivity.
    + reflexivity.
  - apply (proj1 (manifest_query_first_match ex_lib _ _ "N71AP" ex_manifest_ids)
             []
             (ex_identity "n71ap" [("RestoreSEP", ex_component "sep-n71.im4p")])
             [ex_identity "n71map"
                [("RestoreSEP", ex_component "sep-n71m.im4p");
                 ("BasebandFirmware", ex_component "Mav13.bbfw")];
              ex_identity "N71mAP" []; ex_identity "j42dap" []]
             [("RestoreSEP", ex_component "sep-n71.im4p")]).
    + reflexivity.
    + constructor.
    + exists "n71ap". split; reflexivity.
    + reflexivity.
  - apply (proj1 (proj2 (manifest_query_first_match ex_lib _ _ "n69ap" ex_manifest_ids))).
    intros x Hx (b & Hb & He).
    repeat (apply elem_of_cons in Hx as [->|Hx];
            [vm_compute in Hb; injection Hb as <-; discriminate|]).
    by apply elem_of_nil in Hx.
  - apply (proj2 (proj2 (manifest_query_first_match ex_lib (PyPlist ex_manifest_broken)
                           [ex_identity "n71ap" []; PDict [("Manifest", PDict [])];
                            ex_identity "n71map" []] "n71map" eq_refl))
             [ex_identity "n71ap" []] (PDict [("Manifest", PDict [])])
             [ex_identity "n71map" []] KeyError).
    + reflexivity.
    + repeat constructor. exists "n71ap". split; [reflexivity|discriminate].
    + reflexivity.
Defined.

(** ** Sessions that arise *)

Lemma view_insert_state v ud :
  view (<["state" := v]> ud) = (Some v, ud !! "device", ud !! "boardconfig").
Proof. unfold view. by rewrite lookup_insert_eq, !lookup_insert_ne. Qed.

Lemma view_insert_device v ud :
  view (<["device" := v]> ud) = (ud !! "state", Some v, ud !! "boardconfig").
Proof. unfold view. by rewrite lookup_insert_eq, !lookup_insert_ne. Qed.

Lemma view_insert_boardconfig v ud :
  view (<["boardconfig" := v]> ud) = (ud !! "state", ud !! "device", Some v).
Proof. unfold view. by rewrite lookup_insert_eq, !lookup_insert_ne. Qed.

Lemma view_empty : view ∅ = (None, None, None).
Proof. done. Qed.

Lemma view_setdefault ud :
  view (setdefault "state" (VState NONE) ud) =
    (Some (default (VState NONE) (ud !! "state")), ud !! "device", ud !! "boardconfig").
Proof.
  unfold setdefault. destruct (ud !! "state") as [v|] eqn:Hv.
  - unfold view. by rewrite Hv.
  - by rewrite view_insert_state.
Qed.

Lemma setdefault_inv ud : session_inv ud → session_inv (setdefault "state" (VState NONE) ud).
Proof.
  unfold session_inv. rewrite view_setdefault. unfold view.
  by destruct (ud !! "state") as [[[]| |]|], (ud !! "device") as [[]|],
    (ud !! "boardconfig") as [[]|].
Qed.

(** lookups through the updates a handler made *)
Ltac lookup_simpl :=
  repeat match goal with
    | H : context [<[_:=_]> _ !! _] |- _ =>
        first [ rewrite lookup_insert_eq in H | rewrite lookup_insert_ne in H by done ]
    | |- context [<[_:=_]> _ !! _] =>
        first [ rewrite lookup_insert_eq | rewrite lookup_insert_ne by done ]
    end.

(** closing a goal about the shape of an updated session *)
Ltac shape_solve :=
  unfold session_inv;
  rewrite ?view_insert_state, ?view_insert_device, ?view_insert_boardconfig, ?view_empty;
  lookup_simpl;
  unfold view, unsigned_only in *;
  repeat match goal with
    | H : ?x = _ |- context [?x] => rewrite H
    end;
  simplify_eq/=; try done; try congruence.

Lemma on_text_inv L E text s :
  session_inv (user_data s) → session_inv (user_data (snd (on_text L E text s))).
Proof.
  intros Hinv%setdefault_inv.
  change (wp (on_text L E text) s (fun _ s' => session_inv (user_data s'))).
  unfold on_text. wp_step. wp_step.
  change (session_inv (user_data (set_user_data (setdefault "state" (VState NONE)) s)))
    in Hinv.
  revert Hinv. generalize (set_user_data (setdefault "state" (VState NONE)) s).
  clear s. intros s Hinv. cbv beta iota.
  unfold session_inv, view in Hinv.
  destruct (user_data s !! "state") as [[[]| |]|] eqn:Hs,
    (user_data s !! "device") as [[]|] eqn:Hd,
    (user_data s !! "boardconfig") as [[]|] eqn:Hb; try done.
  all: wp_step; wp_step; cbv beta iota; rewrite Hs; simpl.
  all: unfold on_device_type, on_device_model, on_board_config, on_firmware,
    show_firmware_menu, query_and_report, resolve_manifest, pzb_buildmanifest.
  all: wp_go.
  all: shape_solve.
Qed.

Lemma start_inv s : session_inv (user_data (snd (start s))).
Proof.
  unfold start, bind, reply_text, modify, ret. simpl. unfold session_inv.
  by rewrite view_insert_state.
Qed.

Lemma session_of_leave_same conv s p : session_of conv (leave conv s p) = user_data s.
Proof. unfold session_of, leave. simpl. by rewrite lookup_insert_eq. Qed.

Lemma session_of_leave_other conv c s p :
  conv ≠ c → session_of c (leave conv s p) = session_of c p.
Proof. intros Hne. unfold session_of, leave. simpl. by rewrite lookup_insert_ne. Qed.

Lemma dispatch_inv L u p :
  (∀ c, session_inv (session_of c p)) → ∀ c, session_inv (session_of c (dispatch L u p)).
Proof.
  intros Hinv c. destruct u as [conv|conv E text]; simpl.
  - destruct (decide (conv = c)) as [->|Hne].
    + rewrite session_of_leave_same. apply start_inv.
    + by rewrite session_of_leave_other.
  - destruct (decide (conv = c)) as [->|Hne].
    + rewrite session_of_leave_same. apply on_text_inv, Hinv.
    + by rewrite session_of_leave_other.
Qed.

Lemma reachable_inv L p : reachable L p → ∀ c, session_inv (session_of c p).
Proof.
  induction 1 as [dir|u p _ IH].
  - intros c. done.
  - by apply dispatch_inv.
Qed.

Lemma reachable_run L us p : reachable L p → reachable L (run L us p).
Proof.
  revert p. induction us as [|u us IH]; intros p Hp; [done|].
  simpl. apply IH. by constructor.
Qed.

(** C4, as the code has it.  In every reachable process, for every
    conversation: a cached device detail is a device record, and it is
    present only at step [BOARD_CONFIG] or [FIRMWARE], or at step
    [DEVICE_MODEL] with a device none of whose firmwares is signed; a
    cached board config is present only together with a device detail; at
    step [FIRMWARE] both are present. *)
Theorem reachable_session_population L p conv :
  reachable L p →
  let ud := session_of conv p in
  (∀ v, ud !! "device" = Some v →
     ∃ d, v = VDevice d
          ∧ (step_of ud = Some BOARD_CONFIG ∨ step_of ud = Some FIRMWARE
             ∨ (step_of ud = Some DEVICE_MODEL ∧ unsigned_only d)))
  ∧ (is_Some (ud !! "boardconfig") → is_Some (ud !! "device"))
  ∧ (step_of ud = Some FIRMWARE → is_Some (ud !! "device") ∧ is_Some (ud !! "boardconfig")).
Proof.
  intros Hp ud. pose proof (reachable_inv L p Hp conv) as Hinv. fold ud in Hinv.
  unfold session_inv, view, step_of in *.
  destruct (ud !! "state") as [[[]| |]|], (ud !! "device") as [[]|],
    (ud !! "boardconfig") as [[]|]; try done.
  all: repeat split; try (by intros [? ?]); try (by intros ?); try by eauto.
  all: intros v ?; simplify_eq; eauto 6.
Qed.

Lemma ex_stuck_reachable : reachable ex_lib ex_stuck.
Proof. apply reachable_run. constructor. Qed.

Lemma reachable_session_population_witness :
  let ud := session_of 2 ex_stuck in
  (∀ v, ud !! "device" = Some v →
     ∃ d, v = VDevice d
          ∧ (step_of ud = Some BOARD_CONFIG ∨ step_of ud = Some FIRMWARE
             ∨ (step_of ud = Some DEVICE_MODEL ∧ unsigned_only d)))
  ∧ (is_Some (ud !! "boardconfig") → is_Some (ud !! "device"))
  ∧ (step_of ud = Some FIRMWARE → is_Some (ud !! "device") ∧ is_Some (ud !! "boardconfig")).
Proof.
  apply (reachable_session_population ex_lib ex_stuck 2).
  apply reachable_run. apply reachable_initial.
Defined.

(** C4 as written fails: after /start, "iPhone" and "iPhone 3G" (one
    eligible board, no signed firmware) the session is still at
    [DEVICE_MODEL] and holds both the device detail and a board config. *)
Lemma boardconfig_held_at_device_model :
  reachable ex_lib ex_stuck
  ∧ step_of (session_of 2 ex_stuck) = Some DEVICE_MODEL
  ∧ session_of 2 ex_stuck !! "device" = Some (VDevice ex_device_unsigned)
  ∧ session_of 2 ex_stuck !! "boardconfig" = Some (VStr "n82ap").
Proof.
  split; [apply ex_stuck_reachable|]. repeat split; by vm_compute.
Qed.

(** ** Unrecognized step, in a running process

    C1.  In every process that arises from the initial one by /start
    commands and text messages, when a text message arrives for a
    conversation whose stored state is none of the four wizard states (no
    state stored yet included), the handler sends the notice "Invalid
    state. Please start over using /start." with the reply keyboard
    removed, and nothing else; afterwards the session is idle: its state is
    [State.NONE], and it holds neither a cached device nor a cached board
    config. *)
Theorem unrecognized_state_notice_and_idle L E conv text p :
  reachable L p →
  (∀ v, session_of conv p !! "state" = Some v → recognized v = false) →
  let p' := dispatch L (TextMessage conv E text) p in
  proc_trace p' = proc_trace p ++ [invalid_state_event]
  ∧ session_of conv p' !! "state" = Some (VState NONE)
  ∧ session_of conv p' !! "device" = None
  ∧ session_of conv p' !! "boardconfig" = None
  ∧ is_idle (session_of conv p').
Proof.
  intros Hp Hun p'.
  pose proof (reachable_inv L p Hp conv) as Hinv.
  destruct (on_text_unrecognized_state L E text (enter conv p) Hun) as [Hrun _].
  subst p'. unfold dispatch. rewrite session_of_leave_same, Hrun.
  cbn [snd user_data set_user_data emit enter leave proc_trace trace].
  unfold session_inv, view in Hinv. unfold is_idle, setdefault.
  destruct (session_of conv p !! "state") as [v|] eqn:Hs.
  - specialize (Hun v eq_refl). rewrite Hs.
    destruct v as [[]| |]; try done.
    destruct (session_of conv p !! "device") as [[]|],
      (session_of conv p !! "boardconfig") as [[]|]; try done.
    repeat split; auto.
  - rewrite lookup_insert_eq, !lookup_insert_ne by done.
    destruct (session_of conv p !! "device") as [[]|],
      (session_of conv p !! "boardconfig") as [[]|]; try done.
    repeat split; auto.
Qed.

Lemma unrecognized_state_notice_and_idle_witness :
  let p' := dispatch ex_lib (TextMessage 7 ex_env "again") ex_greeted in
  proc_trace p' = proc_trace ex_greeted ++ [invalid_state_event]
  ∧ session_of 7 p' !! "state" = Some (VState NONE)
  ∧ session_of 7 p' !! "device" = None
  ∧ session_of 7 p' !! "boardconfig" = None
  ∧ is_idle (session_of 7 p').
Proof.
  apply (unrecognized_state_notice_and_idle ex_lib ex_env 7 "again" ex_greeted).
  - apply reachable_run. apply reachable_initial.
  - intros v Hv. vm_compute in Hv. injection Hv as <-. reflexivity.
Defined.

(** ** Conversations and the shared device list *)










(** * Further properties *)

Lemma append_last_snoc keyboard row x :
  append_last (keyboard ++ [row]) x = keyboard ++ [row ++ [x]].
Proof.
  induction keyboard as [|r keyboard IH]; [done|].
  simpl. rewrite IH. by destruct keyboard.
Qed.

Lemma mod2_succ i : (S i mod 2 =? 0)%nat = negb (i mod 2 =? 0)%nat.
Proof.
  pose proof (Nat.div_mod_eq i 2). pose proof (Nat.div_mod_eq (S i) 2).
  pose proof (Nat.mod_upper_bound i 2). pose proof (Nat.mod_upper_bound (S i) 2).
  destruct (Nat.eqb_spec (S i mod 2) 0), (Nat.eqb_spec (i mod 2) 0); simpl; lia.
Qed.

Lemma keyboard_loop_cons i x rest keyboard :
  keyboard_loop i (x :: rest) keyboard =
    keyboard_loop (S i) rest
      (append_last (if (i mod 2 =? 0)%nat then keyboard ++ [[]] else keyboard) x).
Proof. done. Qed.

Lemma keyboard_loop_chunk2 items :
  ∀ i keyboard,
    ((i mod 2 =? 0)%nat = true →
       keyboard_loop i items keyboard = keyboard ++ chunk2 items)
    ∧ ((i mod 2 =? 0)%nat = false →
       ∀ row, keyboard_loop i items (keyboard ++ [row]) =
              match items with
              | [] => keyboard ++ [row]
              | y :: rest => keyboard ++ (row ++ [y]) :: chunk2 rest
              end).
Proof.
  induction items as [|x items IH]; intros i keyboard.
  - split; [intros _|intros _ row]; simpl; by rewrite ?app_nil_r.
  - split.
    + intros Hi. rewrite keyboard_loop_cons, Hi, append_last_snoc.
      destruct (IH (S i) keyboard) as [_ Hodd].
      rewrite Hodd by (rewrite mod2_succ, Hi; done).
      by destruct items.
    + intros Hi row. rewrite keyboard_loop_cons, Hi, append_last_snoc.
      destruct (IH (S i) (keyboard ++ [row ++ [x]])) as [Heven _].
      rewrite Heven by (rewrite mod2_succ, Hi; done).
      by rewrite <- app_assoc.
Qed.

Lemma chunk2_ind (P : list string → Prop) :
  P [] → (∀ x, P [x]) → (∀ x y rest, P rest → P (x :: y :: rest)) → ∀ l, P l.
Proof.
  intros H0 H1 H2. fix IH 1. intros [|x [|y rest]]; [exact H0 | apply H1 | apply H2, IH].
Qed.

(** ** Keyboards

    X1.  The keyboard loop lays the items out in rows of two, in order, the
    last row holding one item when their number is odd: flattening the
    keyboard gives the items back, every row has one or two buttons, and
    there are half as many rows as items, rounded up. *)
Theorem make_keyboard_rows items :
  make_keyboard items = chunk2 items
  ∧ concat (make_keyboard items) = items
  ∧ Forall (fun row => (1 ≤ length row ≤ 2)%nat) (make_keyboard items)
  ∧ length (make_keyboard items) = ((length items + 1) / 2)%nat.
Proof.
  assert (make_keyboard items = chunk2 items) as ->.
  { unfold make_keyboard. by destruct (keyboard_loop_chunk2 items 0 []) as [-> _]. }
  split; [done|]. induction items as [| x | x y rest (IH1 & IH2 & IH3)] using chunk2_ind.
  - split; [done|]. split; [constructor|done].
  - split; [done|]. split; [|done]. constructor; [simpl; lia|constructor].
  - split; [simpl; by rewrite IH1|]. split.
    + constructor; [simpl; lia | done].
    + cbn [chunk2 length]. rewrite IH3.
      replace (S (S (length rest)) + 1)%nat with (1 * 2 + (length rest + 1))%nat by lia.
      rewrite Nat.div_add_l by done. lia.
Qed.

Lemma concat_make_keyboard items : concat (make_keyboard items) = items.
Proof.
  unfold make_keyboard. rewrite (proj1 (keyboard_loop_chunk2 items 0 []) eq_refl).
  simpl. induction items as [| x | x y rest IH] using chunk2_ind; simpl; by rewrite ?IH.
Qed.

Lemma show_firmware_menu_signed d s :
  user_data s !! "device" = Some (VDevice d) →
  signed_versions d ≠ [] →
  show_firmware_menu s =
    (Ret PyNone,
     set_user_data (insert "state" (VState FIRMWARE))
       (emit (Reply "Please select a version."
                (ReplyKeyboardMarkup (make_keyboard (signed_versions d))) false) s)).
Proof.
  intros Hd Hsigned. unfold show_firmware_menu, bind at 1, gets. rewrite Hd.
  unfold bind at 1, lift, as_device, ret. unfold signed_versions in *.
  by destruct (List.filter fw_signed (dd_firmwares d)).
Qed.

(** ** The device-type step

    X2.  At the device-type step, for a recognized category and a catalog
    fetch that is [ok]: the fetched list replaces [bot_data['devices']]
    whole; if some device's identifier starts with the category's code the
    user gets the keyboard of exactly those devices' names and the step
    becomes [DEVICE_MODEL]; if none does, the user gets "No devices found"
    with the keyboard removed and the step stays, the fetched list having
    been stored all the same. *)
Theorem device_type_selection L E text s code :
  step_of (user_data s) = Some DEVICE_TYPE →
  DEVICE_TYPES !! text = Some code →
  ok (api_devices E) = true →
  let offered := devices_of_type code (body (api_devices E)) in
  let s1 := set_bot_data (insert "devices" (body (api_devices E))) (emit (HttpGet devices_url) s) in
  (offered ≠ [] →
     on_text L E text s =
       (Ret PyNone,
        set_user_data (insert "state" (VState DEVICE_MODEL))
          (emit (Reply "Please select a device."
                   (ReplyKeyboardMarkup (make_keyboard (map ds_name offered))) false) s1)))
  ∧ (offered = [] →
       on_text L E text s =
         (Ret PyMessage,
          emit (Reply "No devices found. Please start over using /start."
                  ReplyKeyboardRemove false) s1))
  ∧ (∀ name, name ∈ concat (make_keyboard (map ds_name offered)) ↔
       ∃ x, x ∈ body (api_devices E) ∧ ds_name x = name
            ∧ startswith (ds_identifier x) code = true).
Proof.
  intros Hst Hty Hok offered s1.
  assert (on_text L E text s =
    match offered with
    | [] => (Ret PyMessage,
             emit (Reply "No devices found. Please start over using /start."
                     ReplyKeyboardRemove false) s1)
    | _ => (Ret PyNone,
            set_user_data (insert "state" (VState DEVICE_MODEL))
              (emit (Reply "Please select a device."
                       (ReplyKeyboardMarkup (make_keyboard (map ds_name offered))) false) s1))
    end) as Hrun.
  { rewrite (on_text_branch _ _ _ _ _ Hst). unfold on_device_type. rewrite Hty.
    unfold bind at 1, modify. rewrite Hok. cbn [negb].
    unfold bind at 1, modify. unfold bind at 1, gets. cbn [bot_data set_bot_data emit].
    unfold bind at 1, lift, bot_devices. rewrite lookup_insert_eq. unfold ret.
    subst offered s1. unfold devices_of_type.
    by destruct (List.filter _ (body (api_devices E))). }
  split; [|split].
  - intros Hne. rewrite Hrun. by destruct offered.
  - intros He. rewrite Hrun. by rewrite He.
  - intros name. rewrite concat_make_keyboard. subst offered. unfold devices_of_type.
    rewrite list_elem_of_In, in_map_iff. split.
    + intros (x & Hx & Hin). apply filter_In in Hin as [Hin Hpre].
      exists x. by rewrite list_elem_of_In.
    + intros (x & Hin & Hx & Hpre). exists x. split; [done|].
      apply filter_In. by rewrite <- list_elem_of_In.
Qed.

(** X3.  When a catalog request comes back not [ok], at the device-type
    step or at the device-model step, the handler has made that one request
    and sends "Unable to communicate with ipsw.me API, please try again
    later."; the session and the cached device list are as before. *)
Theorem catalog_unavailable_keeps_state L E text s url :
  unavailable s E text url →
  on_text L E text s = (Ret PyMessage, emits [HttpGet url; unavailable_event] s).
Proof.
  intros [code Hst Hty Hok|l found Hst Hbot Hfind Hok];
    rewrite (on_text_branch _ _ _ _ _ Hst).
  - unfold on_device_type. rewrite Hty. unfold bind, modify. rewrite Hok. simpl.
    unfold api_unavailable, reply_text, bind, modify, ret, emits, emit. simpl.
    by rewrite <- app_assoc.
  - unfold on_device_model, bind at 1, gets. unfold bind at 1, lift, bot_devices.
    rewrite Hbot. unfold ret. rewrite Hfind. unfold bind, modify. rewrite Hok. simpl.
    unfold api_unavailable, reply_text, bind, modify, ret, emits, emit. simpl.
    by rewrite <- app_assoc.
Qed.

Lemma on_text_picks L E text s found d :
  picks s E text found d →
  on_text L E text s =
    match eligible_boards L d with
    | [] => (Ret PyMessage,
             emits [HttpGet (device_url found);
                    Reply "No boardconfigs found for this device." NoMarkup false] s)
    | board0 :: rest =>
        let s1 := set_user_data (insert "device" (VDevice d)) (emit (HttpGet (device_url found)) s) in
        match rest with
        | [] => (show_firmware_menu ;;; ret PyNone)
                  (set_user_data (insert "boardconfig" (VStr board0)) s1)
        | _ => (Ret PyNone,
                set_user_data (insert "state" (VState BOARD_CONFIG))
                  (emit (Reply board_prompt
                           (ReplyKeyboardMarkup (make_keyboard (board0 :: rest))) false) s1))
        end
    end.
Proof.
  intros [Hst (l & Hbot & Hfind) Hok Hd]. rewrite (on_text_branch _ _ _ _ _ Hst).
  unfold on_device_model, bind at 1, gets. unfold bind at 1, lift, bot_devices.
  rewrite Hbot. unfold ret. rewrite Hfind. unfold bind at 1, modify. rewrite Hok, Hd.
  cbn [negb]. fold (eligible_boards L d).
  destruct (eligible_boards L d) as [|board0 [|board1 rest]]; [|done..].
  unfold reply_text, bind, modify, ret, emits, emit. simpl. by rewrite <- app_assoc.
Qed.

(** ** The device-model step

    X4.  When the chosen device has no board whose name ends in "ap", the
    handler replies "No boardconfigs found for this device." and stores
    nothing: the device detail is not cached and the step stays. *)
Theorem no_eligible_board_stores_nothing L E text s found d :
  picks s E text found d →
  eligible_boards L d = [] →
  on_text L E text s =
    (Ret PyMessage,
     emits [HttpGet (device_url found);
            Reply "No boardconfigs found for this device." NoMarkup false] s).
Proof. intros Hp He. by rewrite (on_text_picks _ _ _ _ _ _ Hp), He. Qed.

(** X5.  When the chosen device has more than one eligible board, the
    device detail is cached, the user is asked for the board config with a
    keyboard of the eligible boards, all of which end in "ap"
    case-insensitively, and the step becomes [BOARD_CONFIG]. *)
Theorem several_boards_ask L E text s found d :
  picks s E text found d →
  (1 < length (eligible_boards L d))%nat →
  on_text L E text s =
    (Ret PyNone,
     set_user_data (insert "state" (VState BOARD_CONFIG))
       (emit (Reply board_prompt
                (ReplyKeyboardMarkup (make_keyboard (eligible_boards L d))) false)
          (set_user_data (insert "device" (VDevice d))
             (emit (HttpGet (device_url found)) s))))
  ∧ Forall (fun b => endswith (str_lower L b) "ap" = true)
      (concat (make_keyboard (eligible_boards L d))).
Proof.
  intros Hp Hlen. split.
  - rewrite (on_text_picks _ _ _ _ _ _ Hp).
    destruct (eligible_boards L d) as [|board0 [|board1 rest]]; simpl in Hlen; [lia..|done].
  - rewrite concat_make_keyboard. unfold eligible_boards.
    apply Forall_forall. intros b Hb. apply list_elem_of_In, in_map_iff in Hb as (x & <- & Hx).
    by apply filter_In in Hx as [_ Hx].
Qed.

(** X6.  When the chosen device has exactly one eligible board and a signed
    firmware, that board is stored as the board config without asking and
    the handler goes straight to the firmware menu: the only reply is the
    keyboard of the signed versions, and the step becomes [FIRMWARE]. *)
Theorem single_board_auto_selected L E text s found d board :
  picks s E text found d →
  eligible_boards L d = [board] →
  signed_versions d ≠ [] →
  on_text L E text s =
    (Ret PyNone,
     set_user_data (insert "state" (VState FIRMWARE))
       (emit (Reply "Please select a version."
                (ReplyKeyboardMarkup (make_keyboard (signed_versions d))) false)
          (set_user_data (insert "boardconfig" (VStr board))
             (set_user_data (insert "device" (VDevice d))
                (emit (HttpGet (device_url found)) s))))).
Proof.
  intros Hp He Hsigned. rewrite (on_text_picks _ _ _ _ _ _ Hp), He. cbv zeta.
  unfold bind at 1. rewrite (show_firmware_menu_signed d); [done| |done].
  cbn [user_data set_user_data emit]. by rewrite lookup_insert_ne, lookup_insert_eq.
Qed.

(** ** The board-config step

    X7.  Any text that ends in "ap" case-insensitively is taken as the board
    config, stored as typed; it is not compared with the boards of the
    cached device.  With a signed firmware the menu of signed versions
    follows and the step becomes [FIRMWARE]. *)
Theorem board_config_taken_verbatim L E text s d :
  step_of (user_data s) = Some BOARD_CONFIG →
  user_data s !! "device" = Some (VDevice d) →
  endswith (str_lower L text) "ap" = true →
  signed_versions d ≠ [] →
  on_text L E text s =
    (Ret PyNone,
     set_user_data (insert "state" (VState FIRMWARE))
       (emit (Reply "Please select a version."
                (ReplyKeyboardMarkup (make_keyboard (signed_versions d))) false)
          (set_user_data (insert "boardconfig" (VStr text)) s))).
Proof.
  intros Hst Hd Hend Hsigned. rewrite (on_text_branch _ _ _ _ _ Hst).
  unfold on_board_config. rewrite Hend. cbn [negb]. unfold bind at 1, modify.
  unfold bind at 1. rewrite (show_firmware_menu_signed d); [done| |done].
  cbn [user_data set_user_data]. by rewrite lookup_insert_ne.
Qed.

(** ** The firmware step

    X8.  When resolution returns a manifest and the query yields two string
    paths, the handler sends one HTML reply, the report built from the
    escaped device name, board config, version, build id and the two paths,
    removes the keyboard and empties the session.  The version is looked up
    among all firmwares of the device, signed or not. *)
Theorem firmware_report_clears_session L E text s d b fw buildmanifest s1 sep bb :
  selects s text d (VStr b) fw →
  resolve_manifest L E fw s = (Ret buildmanifest, s1) →
  manifest_query L buildmanifest (VStr b) = inr (PString sep, PString bb) →
  on_text L E text s =
    (Ret PyNone,
     set_user_data (fun _ => ∅)
       (emit (Reply (report_text (html_escape (dd_name d)) (html_escape b)
                       (html_escape (fw_version fw)) (html_escape (fw_buildid fw))
                       (html_escape sep) (html_escape bb))
                ReplyKeyboardRemove true) s1)).
Proof.
  intros Hsel Hres Hq. rewrite (on_text_selects _ _ _ _ _ _ _ Hsel).
  unfold bind at 1. rewrite Hres. unfold query_and_report, bind at 1, try_reraise, lift.
  by rewrite Hq.
Qed.

(** X9.  When resolution returns a value on which the manifest query
    raises, the handler sends "Unable to get data from BuildManifest, please
    try again later." once and raises the same exception; the session is
    not cleared. *)
Theorem query_failure_propagates L E text s d bc fw buildmanifest s1 e :
  selects s text d bc fw →
  resolve_manifest L E fw s = (Ret buildmanifest, s1) →
  manifest_query L buildmanifest bc = inl e →
  on_text L E text s = (Raise e, emit query_failed_event s1).
Proof.
  intros Hsel Hres Hq. rewrite (on_text_selects _ _ _ _ _ _ _ Hsel).
  unfold bind at 1. rewrite Hres. unfold query_and_report, bind at 1, try_reraise, lift.
  by rewrite Hq.
Qed.

(** X10.  When the query succeeds but a path is not a string, escaping it
    raises outside the [try]: the handler raises without any further reply
    and without clearing the session. *)
Theorem unescapable_path_raises_silently L E text s d b fw buildmanifest s1 sep bb e :
  selects s text d (VStr b) fw →
  resolve_manifest L E fw s = (Ret buildmanifest, s1) →
  manifest_query L buildmanifest (VStr b) = inr (sep, bb) →
  (sep' <-' plist_escape sep ;; plist_escape bb) = inl e →
  on_text L E text s = (Raise e, s1).
Proof.
  intros Hsel Hres Hq He. rewrite (on_text_selects _ _ _ _ _ _ _ Hsel).
  unfold bind at 1. rewrite Hres. unfold query_and_report, bind at 1, try_reraise, lift.
  rewrite Hq. unfold bind at 1, format_report. simpl.
  destruct (plist_escape sep) as [e1|sep']; simpl in *; [by simplify_eq|].
  by rewrite He.
Qed.

Lemma has_char_append c a b :
  has_char c (a ++ b)%string = has_char c a || has_char c b.
Proof. induction a as [|c' a IH]; simpl; [done|]. by rewrite IH, orb_assoc. Qed.

Lemma escape_char_markup_free c : markup_free (escape_char c).
Proof.
  unfold markup_free, markup_chars.
  destruct c as [[] [] [] [] [] [] [] []]; repeat constructor.
Qed.

Lemma html_escape_markup_free s : markup_free (html_escape s).
Proof.
  induction s as [|c s IH]; [repeat constructor|].
  simpl. pose proof (escape_char_markup_free c) as Hc. unfold markup_free in *.
  rewrite Forall_forall in *. intros x Hx. rewrite has_char_append.
  by rewrite (Hc x Hx), (IH x Hx).
Qed.

(** X11.  Each of the six values interpolated into the report is free of
    the characters <, >, and the two quotes. *)
Theorem report_pieces_markup_free d b fw sep bb :
  ∃ pieces,
    length pieces = 6%nat
    ∧ format_report d (VStr b) fw (PString sep) (PString bb) =
        inr (report_text (nth 0 pieces EmptyString) (nth 1 pieces EmptyString)
               (nth 2 pieces EmptyString) (nth 3 pieces EmptyString)
               (nth 4 pieces EmptyString) (nth 5 pieces EmptyString))
    ∧ Forall markup_free pieces.
Proof.
  exists [html_escape (dd_name d); html_escape b; html_escape (fw_version fw);
          html_escape (fw_buildid fw); html_escape sep; html_escape bb].
  split; [done|]. split; [done|].
  do 6 (constructor; [apply html_escape_markup_free|]). constructor.
Qed.

(** ** The extraction

    X12.  An extraction that finds and parses the manifest, started in an
    existing working directory with a fresh temporary directory, returns the
    manifest and leaves the working directory and the directories as they
    were; it has sent the "Extracting" reply, spawned [pzb] once and sent one
    typing action followed by a one-second sleep per poll. *)
Theorem extraction_success_run L E fw s bytes m :
  cwd s ∈ dirs s →
  mkdtemp E ∉ dirs s →
  pzb_output E (fw_url fw) = Some bytes →
  plistlib_loads L bytes = Some m →
  pzb_buildmanifest L E fw s =
    (Ret (PyPlist m),
     emits ([extracting; Popen (pzb_argv fw)] ++ poll_events (pzb_polls E (fw_url fw))) s).
Proof.
  intros Hcwd Hfresh Hout Hparse.
  unfold pzb_buildmanifest, bind at 1, reply_text, bind at 1, modify, ret.
  unfold with_TemporaryDirectory, bind at 1, Path_cwd.
  cbn [cwd dirs set_dirs emit].
  rewrite decide_True by (by apply elem_of_union_r).
  unfold bind at 1, chdir. cbn [cwd dirs set_dirs emit].
  rewrite decide_True by (by apply elem_of_union_l, elem_of_singleton).
  unfold bind at 1, modify. unfold bind at 1. rewrite poll_loop_run, Hout.
  unfold bind at 1, try_reraise, loads. rewrite Hparse. unfold ret.
  unfold bind at 1, chdir. cbn [cwd dirs set_dirs set_cwd emit emits].
  rewrite decide_True by (by apply elem_of_union_r).
  unfold ret, emits, emit, set_dirs, set_cwd. cbn [user_data bot_data cwd dirs trace].
  rewrite tmpdir_removed by done. destruct s as [ud bd cw ds tr].
  cbn [user_data bot_data cwd dirs trace]. by rewrite <- !app_assoc.
Qed.

Lemma pzb_buildmanifest_lost_cwd L E fw s :
  cwd s ∉ dirs s →
  mkdtemp E ≠ cwd s →
  mkdtemp E ∉ dirs s →
  pzb_buildmanifest L E fw s = (Raise FileNotFoundError, emit extracting s).
Proof.
  intros Hcwd Hne Hfresh.
  unfold pzb_buildmanifest, bind at 1, reply_text, bind at 1, modify, ret.
  unfold with_TemporaryDirectory, bind at 1, Path_cwd.
  cbn [cwd dirs set_dirs emit].
  rewrite decide_False.
  - unfold set_dirs, emit. cbn [user_data bot_data cwd dirs trace].
    by rewrite tmpdir_removed.
  - rewrite elem_of_union, elem_of_singleton. by intros [?|?].
Qed.

(** X13.  After an extraction that left no file behind, the next
    extraction (with another temporary directory) sends its "Extracting"
    reply and raises [FileNotFoundError] at [Path.cwd()], before any
    subprocess is spawned. *)
Theorem failed_extraction_breaks_next L E1 E2 fw1 fw2 s :
  cwd s ∈ dirs s →
  mkdtemp E1 ∉ dirs s →
  pzb_output E1 (fw_url fw1) = None →
  mkdtemp E2 ∉ dirs s →
  mkdtemp E2 ≠ mkdtemp E1 →
  let s1 := snd (pzb_buildmanifest L E1 fw1 s) in
  pzb_buildmanifest L E2 fw2 s1 = (Raise FileNotFoundError, emit extracting s1).
Proof.
  intros Hcwd Hf1 Hout Hf2 Hne s1. subst s1.
  rewrite (pzb_buildmanifest_nofile L E1 fw1 s Hcwd Hout). cbn [snd].
  apply pzb_buildmanifest_lost_cwd; unfold after_failed_extraction; cbn [cwd dirs];
    rewrite ?tmpdir_removed by done; done.
Qed.

Lemma lower_eq_same_case L p bc bc' :
  str_lower L bc = str_lower L bc' → lower_eq L p (VStr bc) = lower_eq L p (VStr bc').
Proof. intros H. destruct p; simpl; by rewrite ?H. Qed.

Lemma find_buildidentity_same_case L ids bc bc' :
  str_lower L bc = str_lower L bc' →
  find_buildidentity L ids (VStr bc) = find_buildidentity L ids (VStr bc').
Proof.
  intros H. induction ids as [|x ids IH]; [done|]. simpl.
  destruct (plist_getitem x "Info") as [e|info]; [done|]. simpl.
  destruct (plist_getitem info "DeviceClass") as [e|dc]; [done|]. simpl.
  rewrite (lower_eq_same_case L dc bc bc' H). by rewrite IH.
Qed.

(** ** More on the manifest query

    X14.  Two board configs that agree up to letter case get the same
    answer from the manifest query. *)
Theorem manifest_query_ignores_case L buildmanifest bc bc' :
  str_lower L bc = str_lower L bc' →
  manifest_query L buildmanifest (VStr bc) = manifest_query L buildmanifest (VStr bc').
Proof.
  intros H. unfold manifest_query.
  destruct (py_getitem buildmanifest "BuildIdentities") as [e|ids]; [done|]. simpl.
  destruct (plist_iter ids) as [e|l]; [done|]. simpl.
  by rewrite (find_buildidentity_same_case L l bc bc' H).
Qed.

(** X15.  The identities are gone through in order: when an identity
    without a readable board-config field comes before any match, the query
    raises on it, whatever follows it in the list. *)
Theorem malformed_identity_hides_match L buildmanifest pre y post bc e :
  py_getitem buildmanifest "BuildIdentities" = inr (PArray (pre ++ y :: post)) →
  Forall (board_differs L bc) pre →
  (info <-' plist_getitem y "Info" ;; plist_getitem info "DeviceClass") = inl e →
  manifest_query L buildmanifest (VStr bc) = inl e.
Proof.
  intros Hids Hpre Hy. unfold manifest_query. rewrite Hids. simpl.
  by rewrite (find_buildidentity_unreadable L bc pre y post e).
Qed.

(** ** The order of the steps

    X16.  A text message never takes a session backwards: from [NONE] it
    stays at [NONE]; from [DEVICE_TYPE] it stays or goes to [DEVICE_MODEL];
    from [DEVICE_MODEL] it stays or goes to [BOARD_CONFIG] or [FIRMWARE];
    from [BOARD_CONFIG] it stays or goes to [FIRMWARE]; from [FIRMWARE] it
    stays or the session is emptied. *)
Theorem on_text_step_order L E text s st :
  step_of (user_data s) = Some st →
  step_of (user_data (snd (on_text L E text s))) ∈ successors st.
Proof.
  intros Hst. rewrite (on_text_branch _ _ _ _ _ Hst).
  apply step_of_Some in Hst.
  destruct st;
    [ change (wp (invalid_state ;;; ret PyNone) s
                (fun _ s' => step_of (user_data s') ∈ successors NONE))
    | change (wp (on_device_type E text) s
                (fun _ s' => step_of (user_data s') ∈ successors DEVICE_TYPE))
    | change (wp (on_device_model L E text) s
                (fun _ s' => step_of (user_data s') ∈ successors DEVICE_MODEL))
    | change (wp (on_board_config L text) s
                (fun _ s' => step_of (user_data s') ∈ successors BOARD_CONFIG))
    | change (wp (on_firmware L E text) s
                (fun _ s' => step_of (user_data s') ∈ successors FIRMWARE)) ].
  all: unfold on_device_type, on_device_model, on_board_config, on_firmware,
    show_firmware_menu, query_and_report, resolve_manifest, pzb_buildmanifest.
  all: wp_go.
  all: unfold step_of; lookup_simpl; rewrite ?Hst, ?lookup_empty; simpl.
  all: rewrite !elem_of_cons; auto.
Qed.

Lemma split_on_nonempty c s : split_on c s ≠ [].
Proof.
  destruct s as [|a s]; [done|]. simpl. destruct (Ascii.eqb a c); [done|].
  by destruct (split_on c s).
Qed.

Lemma join_cons_String sep c w ws :
  join sep (String c w :: ws) = String c (join sep (w :: ws)).
Proof. by destruct ws. Qed.

Lemma join_split_on c s : join (String c EmptyString) (split_on c s) = s.
Proof.
  induction s as [|a s IH]; [done|]. simpl.
  destruct (Ascii.eqb_spec a c) as [->|Hne].
  - pose proof (split_on_nonempty c s). destruct (split_on c s) as [|w ws]; [done|].
    simpl in *. by rewrite IH.
  - pose proof (split_on_nonempty c s). destruct (split_on c s) as [|w ws]; [done|].
    by rewrite join_cons_String, IH.
Qed.

Lemma split_on_no_sep c s : has_char c s = false → split_on c s = [s].
Proof.
  induction s as [|a s IH]; [done|]. simpl. intros [Ha Hs]%orb_false_elim.
  rewrite Ha. by rewrite IH.
Qed.

Lemma split_on_sep_app c a b :
  split_on c (a ++ String c b)%string = split_on c a ++ split_on c b.
Proof.
  induction a as [|x a IH]; simpl.
  - by rewrite Ascii.eqb_refl.
  - destruct (Ascii.eqb x c); rewrite IH; [done|].
    pose proof (split_on_nonempty c a). by destruct (split_on c a).
Qed.

Lemma string_append_assoc (a b c : string) : ((a ++ b) ++ c = a ++ b ++ c)%string.
Proof. induction a as [|x a IH]; [done|]. exact (f_equal (String x) IH). Qed.

Lemma join_snoc sep l x :
  l ≠ [] → join sep (l ++ [x]) = (join sep l ++ sep ++ x)%string.
Proof.
  induction l as [|y l IH]; [done|]. intros _. destruct l as [|z l]; [done|].
  change (join sep ((y :: z :: l) ++ [x])) with (y ++ sep ++ join sep ((z :: l) ++ [x]))%string.
  rewrite IH by done. change (join sep (y :: z :: l)) with (y ++ sep ++ join sep (z :: l))%string.
  by rewrite !string_append_assoc.
Qed.

(** ** The sibling manifest URL

    X17.  The manifest URL differs from the firmware URL in its path only,
    where the last segment is replaced by "BuildManifest.plist"; a path
    without any slash becomes "BuildManifest.plist" alone. *)
Theorem sibling_url_replaces_last_segment L p :
  buildmanifest_url L p = urlunparse L (replace_path p (sibling_path (path p)))
  ∧ (∀ dir file,
       has_char "/" file = false →
       sibling_path (dir ++ "/" ++ file) = (dir ++ "/BuildManifest.plist")%string)
  ∧ (∀ file, has_char "/" file = false → sibling_path file = "BuildManifest.plist").
Proof.
  split; [done|]. split.
  - intros dir file Hfile. unfold sibling_path.
    change (dir ++ "/" ++ file)%string with (dir ++ String "/" file)%string.
    rewrite split_on_sep_app, (split_on_no_sep _ file Hfile).
    rewrite removelast_last, join_snoc by apply split_on_nonempty.
    by rewrite join_split_on.
  - intros file Hfile. unfold sibling_path. by rewrite (split_on_no_sep _ file Hfile).
Qed.

(** ** /start

    X18.  /start sets the conversation's session to the single entry
    "state: DEVICE_TYPE", whatever it held, leaves every other conversation
    and the cached device list alone, and sends a keyboard whose buttons are
    exactly the keys of [DEVICE_TYPES]. *)
Theorem start_resets_conversation L conv p :
  let p' := dispatch L (StartCommand conv) p in
  session_of conv p' = {["state" := VState DEVICE_TYPE]}
  ∧ (∀ c, c ≠ conv → session_of c p' = session_of c p)
  ∧ proc_bot_data p' = proc_bot_data p
  ∧ proc_trace p' =
      proc_trace p ++ [Reply "Please select a device type."
                         (ReplyKeyboardMarkup start_keyboard) false]
  ∧ (∀ text, text ∈ concat start_keyboard ↔ is_Some (DEVICE_TYPES !! text)).
Proof.
  intros p'. split; [|split; [|split; [|split]]].
  - subst p'. simpl. by rewrite session_of_leave_same.
  - intros c Hc. subst p'. simpl. by rewrite session_of_leave_other.
  - done.
  - done.
  - intros text. split.
    + unfold start_keyboard. simpl. rewrite !elem_of_cons, elem_of_nil.
      intros [->|[->|[->|[->|[]]]]]; by eexists.
    + intros [code Hcode]. unfold DEVICE_TYPES in Hcode. simpl in Hcode.
      unfold start_keyboard. simpl. rewrite !elem_of_cons.
      repeat (apply lookup_insert_Some in Hcode as [[<- _]|[_ Hcode]]; [by auto 6|]).
      by rewrite lookup_empty in Hcode.
Qed.

Lemma poll_events_no_invalid n :
  forallb (fun e => negb (is_invalid_state_reply e)) (poll_events n) = true.
Proof. induction n; simpl; auto. Qed.

Lemma on_text_no_invalid_state L E text s st :
  session_inv (user_data s) →
  step_of (user_data s) = Some st →
  st ≠ NONE →
  ∃ evs, trace (snd (on_text L E text s)) = trace s ++ evs
         ∧ forallb (fun e => negb (is_invalid_state_reply e)) evs = true.
Proof.
  intros Hinv Hst Hne. rewrite (on_text_branch _ _ _ _ _ Hst).
  unfold session_inv, view in Hinv. unfold step_of in Hst.
  destruct (user_data s !! "state") as [[[]| |]|] eqn:Hs,
    (user_data s !! "device") as [[]|] eqn:Hd,
    (user_data s !! "boardconfig") as [[]|] eqn:Hb; try done; simplify_eq.
  all: match goal with
       | |- ∃ evs, trace (snd (?m ?s0)) = _ ∧ _ =>
           change (wp m s0 (fun _ s' =>
             ∃ evs, trace s' = trace s0 ++ evs
                    ∧ forallb (fun e => negb (is_invalid_state_reply e)) evs = true))
       end.
  all: unfold on_device_type, on_device_model, on_board_config, on_firmware,
    show_firmware_menu, query_and_report, resolve_manifest, pzb_buildmanifest.
  all: wp_go.
  all: lookup_simpl; simplify_eq.
  all: rewrite <- ?app_assoc; simpl.
  all: first [ by (exists []; rewrite app_nil_r)
             | eexists; split; [reflexivity|];
               simpl; rewrite ?forallb_app; simpl; by rewrite ?poll_events_no_invalid ].
Qed.

(** ** The defensive replies

    X19.  In a reachable process, a text message to a conversation whose
    step is one of the four wizard steps never produces the "Invalid state"
    reply: the guards of the firmware step and of the firmware menu do not
    fire. *)
Theorem invalid_state_only_when_idle L E conv text p st :
  reachable L p →
  step_of (session_of conv p) = Some st →
  st ≠ NONE →
  ∃ evs, proc_trace (dispatch L (TextMessage conv E text) p) = proc_trace p ++ evs
         ∧ forallb (fun e => negb (is_invalid_state_reply e)) evs = true.
Proof.
  intros Hp Hst Hne.
  apply (on_text_no_invalid_state L E text (enter conv p) st); [|done..].
  by apply (reachable_inv L).
Qed.

(** ** Instances *)

Lemma device_type_selection_witness :
  let offered := devices_of_type "iPhone" ex_devices in
  let s1 := set_bot_data (insert "devices" ex_devices)
              (emit (HttpGet devices_url) (ex_at DEVICE_TYPE)) in
  (offered ≠ [] →
     on_text ex_lib ex_env "iPhone" (ex_at DEVICE_TYPE) =
       (Ret PyNone,
        set_user_data (insert "state" (VState DEVICE_MODEL))
          (emit (Reply "Please select a device."
                   (ReplyKeyboardMarkup (make_keyboard (map ds_name offered))) false) s1)))
  ∧ (offered = [] →
       on_text ex_lib ex_env "iPhone" (ex_at DEVICE_TYPE) =
         (Ret PyMessage,
          emit (Reply "No devices found. Please start over using /start."
                  ReplyKeyboardRemove false) s1))
  ∧ (∀ name, name ∈ concat (make_keyboard (map ds_name offered)) ↔
       ∃ x, x ∈ ex_devices ∧ ds_name x = name
            ∧ startswith (ds_identifier x) "iPhone" = true).
Proof.
  apply (device_type_selection ex_lib ex_env "iPhone" (ex_at DEVICE_TYPE) "iPhone");
    reflexivity.
Defined.

Lemma catalog_unavailable_keeps_state_witness :
  on_text ex_lib ex_env_down "iPhone 6s" (ex_at DEVICE_MODEL) =
    (Ret PyMessage,
     emits [HttpGet "https://api.ipsw.me/v4/device/iPhone8,1"; unavailable_event]
       (ex_at DEVICE_MODEL)).
Proof.
  apply (catalog_unavailable_keeps_state ex_lib ex_env_down "iPhone 6s" (ex_at DEVICE_MODEL)).
  apply (unavailable_device _ _ _ ex_devices
           {| ds_identifier := "iPhone8,1"; ds_name := "iPhone 6s" |}); reflexivity.
Defined.

Lemma ex_picks text found :
  List.find (fun x => String.eqb (ds_name x) text) ex_devices = Some found →
  picks (ex_at DEVICE_MODEL) ex_env_boards text found
    (body (api_device ex_env_boards (ds_identifier found))).
Proof. intros H. split; [done| by exists ex_devices |done..]. Qed.

Lemma no_eligible_board_stores_nothing_witness :
  on_text ex_lib ex_env_boards "iPad Air" (ex_at DEVICE_MODEL) =
    (Ret PyMessage,
     emits [HttpGet "https://api.ipsw.me/v4/device/iPad4,1";
            Reply "No boardconfigs found for this device." NoMarkup false]
       (ex_at DEVICE_MODEL)).
Proof.
  apply (no_eligible_board_stores_nothing ex_lib ex_env_boards "iPad Air" (ex_at DEVICE_MODEL)
           {| ds_identifier := "iPad4,1"; ds_name := "iPad Air" |} ex_device_dev).
  - by apply (ex_picks "iPad Air").
  - reflexivity.
Defined.

Lemma several_boards_ask_witness :
  on_text ex_lib ex_env_boards "iPhone 6s" (ex_at DEVICE_MODEL) =
    (Ret PyNone,
     set_user_data (insert "state" (VState BOARD_CONFIG))
       (emit (Reply board_prompt
                (ReplyKeyboardMarkup (make_keyboard (eligible_boards ex_lib ex_device))) false)
          (set_user_data (insert "device" (VDevice ex_device))
             (emit (HttpGet "https://api.ipsw.me/v4/device/iPhone8,1")
                (ex_at DEVICE_MODEL)))))
  ∧ Forall (fun b => endswith (str_lower ex_lib b) "ap" = true)
      (concat (make_keyboard (eligible_boards ex_lib ex_device))).
Proof.
  apply (several_boards_ask ex_lib ex_env_boards "iPhone 6s" (ex_at DEVICE_MODEL)
           {| ds_identifier := "iPhone8,1"; ds_name := "iPhone 6s" |} ex_device).
  - by apply (ex_picks "iPhone 6s").
  - vm_compute. lia.
Defined.

Lemma single_board_auto_selected_witness :
  on_text ex_lib ex_env_boards "iPhone 3G" (ex_at DEVICE_MODEL) =
    (Ret PyNone,
     set_user_data (insert "state" (VState FIRMWARE))
       (emit (Reply "Please select a version."
                (ReplyKeyboardMarkup (make_keyboard (signed_versions ex_device_single))) false)
          (set_user_data (insert "boardconfig" (VStr "n82ap"))
             (set_user_data (insert "device" (VDevice ex_device_single))
                (emit (HttpGet "https://api.ipsw.me/v4/device/iPhone1,2")
                   (ex_at DEVICE_MODEL)))))).
Proof.
  apply (single_board_auto_selected ex_lib ex_env_boards "iPhone 3G" (ex_at DEVICE_MODEL)
           {| ds_identifier := "iPhone1,2"; ds_name := "iPhone 3G" |} ex_device_single "n82ap").
  - by apply (ex_picks "iPhone 3G").
  - reflexivity.
  - discriminate.
Defined.

Lemma board_config_taken_verbatim_witness :
  on_text ex_lib ex_env "zzzAp" ex_board_step =
    (Ret PyNone,
     set_user_data (insert "state" (VState FIRMWARE))
       (emit (Reply "Please select a version."
                (ReplyKeyboardMarkup (make_keyboard (signed_versions ex_device))) false)
          (set_user_data (insert "boardconfig" (VStr "zzzAp")) ex_board_step))).
Proof.
  apply (board_config_taken_verbatim ex_lib ex_env "zzzAp" ex_board_step ex_device);
    [reflexivity..|discriminate].
Defined.

Lemma firmware_report_clears_session_witness :
  on_text ex_lib ex_env "13.0" (ex_st ex_selected) =
    (Ret PyNone,
     set_user_data (fun _ => ∅)
       (emit (Reply (report_text (html_escape "iPhone 6s") (html_escape "N71mAP")
                       (html_escape "13.0") (html_escape "17A577")
                       (html_escape "sep-n71m.im4p") (html_escape "Mav13.bbfw"))
                ReplyKeyboardRemove true)
          (emit (HttpGet "https://updates.cdn-apple.com/2019/ios/BuildManifest.plist")
             (ex_st ex_selected)))).
Proof.
  apply (firmware_report_clears_session ex_lib ex_env "13.0" (ex_st ex_selected) ex_device
           "N71mAP" ex_fw_unsigned (PyPlist ex_manifest)); [by apply ex_selects|reflexivity..].
Defined.

Lemma query_failure_propagates_witness :
  on_text ex_lib ex_env "14.2" (ex_st ex_selected_other) =
    (Raise StopIteration,
     emit query_failed_event (emit (HttpGet ex_manifest_url) (ex_st ex_selected_other))).
Proof.
  apply (query_failure_propagates ex_lib ex_env "14.2" (ex_st ex_selected_other) ex_device
           (VStr "j99ap") ex_fw_new (PyPlist ex_manifest)); [by split|reflexivity..].
Defined.

Lemma unescapable_path_raises_silently_witness :
  on_text ex_lib_odd ex_env "14.2" (ex_st ex_selected) =
    (Raise AttributeError, emit (HttpGet ex_manifest_url) (ex_st ex_selected)).
Proof.
  apply (unescapable_path_raises_silently ex_lib_odd ex_env "14.2" (ex_st ex_selected)
           ex_device "N71mAP" ex_fw_new (PyPlist ex_manifest_odd) _
           (PInteger 7) (PString "None"));
    [by apply ex_selects|reflexivity..].
Defined.

Lemma extraction_success_run_witness :
  pzb_buildmanifest ex_lib ex_env ex_fw_old (ex_st ex_selected) =
    (Ret (PyPlist ex_manifest),
     emits ([extracting; Popen (pzb_argv ex_fw_old)] ++ poll_events 2) (ex_st ex_selected)).
Proof.
  apply (extraction_success_run ex_lib ex_env ex_fw_old (ex_st ex_selected) [Byte.x01]).
  - vm_compute. reflexivity.
  - vm_compute. discriminate.
  - reflexivity.
  - reflexivity.
Defined.

Lemma failed_extraction_breaks_next_witness :
  let s1 := snd (pzb_buildmanifest ex_lib ex_env_nofile ex_fw_old (ex_st ex_selected)) in
  pzb_buildmanifest ex_lib ex_env_again ex_fw_new s1 =
    (Raise FileNotFoundError, emit extracting s1).
Proof.
  apply (failed_extraction_breaks_next ex_lib ex_env_nofile ex_env_again ex_fw_old ex_fw_new
           (ex_st ex_selected)).
  - vm_compute. reflexivity.
  - vm_compute. discriminate.
  - reflexivity.
  - vm_compute. discriminate.
  - discriminate.
Defined.

Lemma manifest_query_ignores_case_witness :
  manifest_query ex_lib (PyPlist ex_manifest) (VStr "N71mAP") =
    manifest_query ex_lib (PyPlist ex_manifest) (VStr "n71MAP").
Proof.
  apply (manifest_query_ignores_case ex_lib (PyPlist ex_manifest) "N71mAP" "n71MAP"). reflexivity.
Defined.

Lemma malformed_identity_hides_match_witness :
  manifest_query ex_lib (PyPlist ex_manifest_broken) (VStr "n71map") = inl KeyError.
Proof.
  apply (malformed_identity_hides_match ex_lib (PyPlist ex_manifest_broken)
           [ex_identity "n71ap" []] (PDict [("Manifest", PDict [])])
           [ex_identity "n71map" []] "n71map" KeyError).
  - reflexivity.
  - repeat constructor. exists "n71ap". split; [reflexivity|discriminate].
  - reflexivity.
Defined.

Lemma on_text_step_order_witness :
  step_of (user_data (snd (on_text ex_lib ex_env "14.2" (ex_st ex_selected))))
  ∈ successors FIRMWARE.
Proof.
  apply (on_text_step_order ex_lib ex_env "14.2" (ex_st ex_selected) FIRMWARE). reflexivity.
Defined.

Lemma invalid_state_only_when_idle_witness :
  ∃ evs, proc_trace (dispatch ex_lib (TextMessage 2 ex_env "n82ap") ex_stuck)
         = proc_trace ex_stuck ++ evs
         ∧ forallb (fun e => negb (is_invalid_state_reply e)) evs = true.
Proof.
  apply (invalid_state_only_when_idle ex_lib ex_env 2 "n82ap" ex_stuck DEVICE_MODEL).
  - apply reachable_run. apply reachable_initial.
  - reflexivity.
  - discriminate.
Defined.

Lemma sibling_url_replaces_last_segment_witness :
  sibling_path ("/2020/ios" ++ "/" ++ "iPhone_14.2_Restore.ipsw")
  = ("/2020/ios" ++ "/BuildManifest.plist")%string
  ∧ sibling_path "Restore.ipsw" = "BuildManifest.plist".
Proof.
  pose proof (sibling_url_replaces_last_segment ex_lib (ex_urlparse (fw_url ex_fw_new)))
    as (_ & Hdir & Hfile).
  split; [apply Hdir | apply Hfile]; reflexivity.
Defined.

Lemma start_resets_conversation_witness :
  session_of 2 (dispatch ex_lib (StartCommand 2) ex_stuck) = {["state" := VState DEVICE_TYPE]}
  ∧ session_of 1 (dispatch ex_lib (StartCommand 2) ex_two) = session_of 1 ex_two.
Proof.
  split.
  - apply (start_resets_conversation ex_lib 2 ex_stuck).
  - apply (start_resets_conversation ex_lib 2 ex_two). discriminate.
Defined.
